(** * News-portal client: form handlers and editor sanitisation

    A shallow embedding of the event handlers of the news-portal client
    (settings form, sign-up and sign-in forms, rich-text editor) together
    with the properties its specification states about them.

    Conventions of the embedding.
    - A JavaScript string is a [string]; one character stands for one
      UTF-16 code unit, so the model covers the strings whose code units
      lie below 256.  Character classes ([\s]) list the members in that
      range.
    - A JavaScript number that the code only tests and prints (the
      settings identifier, a file size) is a [Z].
    - React component state is a record; a handler is a function from the
      state at the time of the event to the state once the handler has
      completed, paired with the effects it had on the outside world
      (requests sent, timers armed, alerts shown).
    - An awaited request is answered by a [server] oracle: it either
      resolves with a response body or rejects with an error. *)

From Stdlib Require Import ZArith Ascii String List Bool Lia.
From stdpp Require Import base option list strings pretty gmap.
Import ListNotations.
Local Open Scope string_scope.
Local Open Scope Z_scope.

(** ** JavaScript primitives used by the handlers *)

Module JS.

(** [!s] for a string: only the empty string is falsy. *)
Definition falsy (s : string) : bool :=
  match s with EmptyString => true | _ => false end.

(** [a || b] on strings. *)
Definition or_else (a b : string) : string := if falsy a then b else a.

(** [String.prototype.startsWith]. *)
Definition startsWith (p s : string) : bool := String.prefix p s.

(** [Array.prototype.includes] on an array of strings. *)
Definition includes (l : list string) (s : string) : bool :=
  existsb (String.eqb s) l.

(** [Array.prototype.join]. *)
Fixpoint join (sep : string) (l : list string) : string :=
  match l with
  | [] => ""
  | [x] => x
  | x :: rest => x ++ sep ++ join sep rest
  end.

(** [String.prototype.split] with a one-character separator. *)
Fixpoint split_go (sep : ascii) (acc s : string) : list string :=
  match s with
  | EmptyString => [String.rev acc]
  | String c rest =>
      if Ascii.eqb c sep then String.rev acc :: split_go sep "" rest
      else split_go sep (String c acc) rest
  end.

Definition split (sep : ascii) (s : string) : list string := split_go sep "" s.

(** White space and line terminators below code unit 256: TAB, LF, VT,
    FF, CR, SPACE and NO-BREAK SPACE.  This is the class [\s] of a
    regular expression and the set [String.prototype.trim] strips. *)
Definition is_space (c : ascii) : bool :=
  let n := nat_of_ascii c in
  ((9 <=? n)%nat && (n <=? 13)%nat) || (n =? 32)%nat || (n =? 160)%nat.

Fixpoint trimStart (s : string) : string :=
  match s with
  | String c rest => if is_space c then trimStart rest else s
  | EmptyString => EmptyString
  end.

Definition trim (s : string) : string :=
  String.rev (trimStart (String.rev (trimStart s))).

(** [String.prototype.toLowerCase] below code unit 256: the letters A-Z
    and the accented capitals U+00C0-U+00DE (U+00D7, the multiplication
    sign, is no letter) move up by 32. *)
Definition lower_char (c : ascii) : ascii :=
  let n := nat_of_ascii c in
  if ((65 <=? n)%nat && (n <=? 90)%nat)
     || ((192 <=? n)%nat && (n <=? 222)%nat && negb (n =? 215)%nat)
  then ascii_of_nat (n + 32) else c.

Fixpoint toLowerCase (s : string) : string :=
  match s with
  | EmptyString => EmptyString
  | String c rest => String (lower_char c) (toLowerCase rest)
  end.

(** [`${n}`] for an integer-valued number (decimal digits, a leading
    minus sign for negative values); exact below 10^21 in magnitude,
    where JavaScript switches to exponent notation. *)
Definition Number_toString (n : Z) : string := pretty n.

(** [String.prototype.split] with the pattern [/\s+/]: the pieces between
    the maximal runs of white space.  A subject that begins or ends with
    white space has an empty first or last piece, and the empty subject has
    the one piece [""]. *)
Fixpoint split_spaces_go (acc : string) (in_run : bool) (s : string)
    : list string :=
  match s with
  | EmptyString => [String.rev acc]
  | String c rest =>
      if is_space c then
        if in_run then split_spaces_go "" true rest
        else String.rev acc :: split_spaces_go "" true rest
      else split_spaces_go (String c acc) false rest
  end.

Definition split_spaces (s : string) : list string := split_spaces_go "" false s.

(** [String.prototype.toUpperCase] on one code unit below 256: the letters
    a-z and the accented small letters U+00E0-U+00FE (U+00F7, the division
    sign, is no letter) move down by 32.  The capitals of U+00B5, U+00DF
    and U+00FF are not single code units below 256; they are outside the
    model and left as they are. *)
Definition upper_char (c : ascii) : ascii :=
  let n := nat_of_ascii c in
  if ((97 <=? n)%nat && (n <=? 122)%nat)
     || ((224 <=? n)%nat && (n <=? 254)%nat && negb (n =? 247)%nat)
  then ascii_of_nat (n - 32) else c.

(** [s.charAt(0).toUpperCase() + s.slice(1)] *)
Definition capitalize (s : string) : string :=
  match s with
  | EmptyString => EmptyString
  | String c rest => String (upper_char c) rest
  end.

(** [encodeURIComponent] on code units below 256.  Letters, digits and
    [- _ . ! ~ * ' ( )] stand for themselves; any other code unit below 128
    becomes one escape [%XX]; a code unit from 128 on becomes the escapes of
    the two bytes of its UTF-8 form. *)
Definition unreserved (c : ascii) : bool :=
  let n := nat_of_ascii c in
  ((65 <=? n)%nat && (n <=? 90)%nat) || ((97 <=? n)%nat && (n <=? 122)%nat)
  || ((48 <=? n)%nat && (n <=? 57)%nat)
  || existsb (Ascii.eqb c) ["-"; "_"; "."; "!"; "~"; "*"; "'"; "("; ")"]%char.

Definition hex_digit (n : nat) : ascii :=
  ascii_of_nat (if (n <? 10)%nat then 48 + n else 55 + n).

Definition escape_byte (byte : nat) : string :=
  String "%" (String (hex_digit (byte / 16)) (String (hex_digit (byte mod 16)) "")).

Definition encode_unit (c : ascii) : string :=
  let n := nat_of_ascii c in
  if (n <? 128)%nat then
    if unreserved c then String c "" else escape_byte n
  else escape_byte (192 + n / 64) ++ escape_byte (128 + n mod 64).

Fixpoint encodeURIComponent (s : string) : string :=
  match s with
  | EmptyString => EmptyString
  | String c rest => encode_unit c ++ encodeURIComponent rest
  end.

End JS.

(** ** The shared HTTP client *)

Module Axios.

Inductive method := GET | POST | PUT.

(** A request as it leaves the client: verb, path, body and headers. *)
Record request (B : Type) := Request {
  req_method : method;
  url : string;
  data : B;
  headers : gmap string string
}.
Arguments Request {B}.
Arguments req_method {B}.
Arguments url {B}.
Arguments data {B}.
Arguments headers {B}.

(** Modelled from the spec: the module that creates the shared client
    ([SharedItems/AxiosInstance]) is not among the sources.  The
    specification describes it as "an HTTP client configured with a base
    address and bearer-token header, used for all requests"; the model
    keeps the base address and the table [defaults.headers.common], which
    the handlers read and write through [axiosInstance.defaults]. *)
Record instance := Instance {
  baseURL : string;
  common : gmap string string
}.

(** A request made through the client: the library merges the client's
    common headers into the headers of every request, a header given with
    the call taking precedence over a common header of the same name. *)
Definition send {B} (inst : instance) (m : method) (path : string) (body : B)
    (config : gmap string string) : request B :=
  Request m path body (config ∪ common inst).

Definition post {B} (inst : instance) (path : string) (body : B) : request B :=
  send inst POST path body ∅.

Definition put {B} (inst : instance) (path : string) (body : B) : request B :=
  send inst PUT path body ∅.

(** What a rejected request, or a statement inside [try], can throw.
    An error raised by the client records the server's reply when there
    was one ([response], holding [response.data.message] when the reply
    carries one), whether a request object exists ([has_request]) and a
    message of its own. *)
Record AxiosError := {
  response : option (option string);
  has_request : bool;
  message : string
}.

Inductive error :=
| Axios (e : AxiosError)
| Native (msg : string)      (* any other instance of Error *)
| Thrown.                    (* a thrown value that is not an Error *)

Inductive outcome (R : Type) :=
| Resolved (r : R)
| Rejected (e : error).
Arguments Resolved {R}.
Arguments Rejected {R}.

(** ["response" in err] *)
Definition in_response (err : error) : bool :=
  match err with
  | Axios e => match response e with Some _ => true | None => false end
  | _ => false
  end.

(** [err.response?.data?.message], the empty string standing for a
    missing message (both are falsy under [||]). *)
Definition response_message (err : error) : string :=
  match err with
  | Axios e =>
      match response e with
      | Some (Some m) => m
      | _ => ""
      end
  | _ => ""
  end.

End Axios.

(** ** The reply envelope

    [interface ApiResponse<T>]: every reply of the service carries a
    success flag, a message and an optional payload. *)

Module Response.
Record t (T : Type) := Make {
  success : bool;
  message : string;
  data : option T
}.
Arguments Make {T}.
Arguments success {T}.
Arguments message {T}.
Arguments data {T}.
End Response.

(** ** The settings form ([basic-settings/page.tsx]) *)

Module Settings.

(** [interface BasicSettingsData]; [id] is the optional numeric
    identifier. *)
Record BasicSettingsData := {
  id : option Z;
  site_name : string;
  tagline : string;
  logo_url : string;
  favicon_url : string;
  contact_email : string;
  contact_phone : string;
  contact_address : string;
  facebook_url : string;
  x_url : string;
  instagram_url : string;
  meta_description : string;
  meta_keywords : string;
  meta_author : string;
  google_analytics_id : string;
  copyright_text : string;
  maintenance_mode : bool
}.

(** [type UploadType = "logo" | "favicon"] *)
Inductive UploadType := logo | favicon.

(** [`${type}`] *)
Definition type_name (type : UploadType) : string :=
  match type with logo => "logo" | favicon => "favicon" end.

(** The browser's [File]: the handler reads its MIME type and its size
    in bytes. *)
Record File := {
  file_name : string;
  type : string;
  size : Z
}.

Record Uploading := { uploading_logo : bool; uploading_favicon : bool }.

(** The component state the two handlers read and write.  The tab,
    preview and accordion flags are display state that neither handler
    touches. *)
Record state := {
  settings : BasicSettingsData;
  loading : bool;
  saving : bool;
  error : string;
  success : string;
  uploading : Uploading
}.

Definition setSettings (v : BasicSettingsData) (st : state) : state :=
  {| settings := v; loading := loading st; saving := saving st;
     error := error st; success := success st; uploading := uploading st |}.

Definition setSaving (v : bool) (st : state) : state :=
  {| settings := settings st; loading := loading st; saving := v;
     error := error st; success := success st; uploading := uploading st |}.

Definition setError (v : string) (st : state) : state :=
  {| settings := settings st; loading := loading st; saving := saving st;
     error := v; success := success st; uploading := uploading st |}.

Definition setSuccess (v : string) (st : state) : state :=
  {| settings := settings st; loading := loading st; saving := saving st;
     error := error st; success := v; uploading := uploading st |}.

(** [setUploading((prev) => ({ ...prev, [type]: v }))] *)
Definition setUploading (type : UploadType) (v : bool) (st : state) : state :=
  let prev := uploading st in
  let next :=
    match type with
    | logo => {| uploading_logo := v; uploading_favicon := uploading_favicon prev |}
    | favicon => {| uploading_logo := uploading_logo prev; uploading_favicon := v |}
    end in
  {| settings := settings st; loading := loading st; saving := saving st;
     error := error st; success := success st; uploading := next |}.

(** [setSettings((prev) => ({ ...prev, [`${type}_url`]: v }))] *)
Definition set_url (type : UploadType) (v : string) (s : BasicSettingsData)
    : BasicSettingsData :=
  {| id := id s; site_name := site_name s; tagline := tagline s;
     logo_url := match type with logo => v | favicon => logo_url s end;
     favicon_url := match type with favicon => v | logo => favicon_url s end;
     contact_email := contact_email s; contact_phone := contact_phone s;
     contact_address := contact_address s; facebook_url := facebook_url s;
     x_url := x_url s; instagram_url := instagram_url s;
     meta_description := meta_description s; meta_keywords := meta_keywords s;
     meta_author := meta_author s; google_analytics_id := google_analytics_id s;
     copyright_text := copyright_text s; maintenance_mode := maintenance_mode s |}.

(** A callback handed to [setTimeout]. *)
Inductive callback := ClearSuccess.

(** What a handler leaves behind once it has completed: the component
    state, the requests it issued in order, and the timers it armed. *)
Record result (B : Type) := Result {
  final : state;
  sent : list (Axios.request B);
  timers : list (Z * callback)
}.
Arguments Result {B}.
Arguments final {B}.
Arguments sent {B}.
Arguments timers {B}.

(** The [catch] clause shared by both handlers. *)
Definition catch_message (fallback : string) (err : Axios.error) : string :=
  if Axios.in_response err then JS.or_else (Axios.response_message err) fallback
  else match err with
       | Axios.Axios e => Axios.message e
       | Axios.Native m => m
       | Axios.Thrown => fallback
       end.

(** *** handleFileUpload *)

Definition validTypes : list string :=
  ["image/jpeg"; "image/jpg"; "image/png"; "image/gif"; "image/webp";
   "image/svg+xml"; "image/x-icon"].

Definition maxSize (type : UploadType) : Z :=
  match type with
  | logo => 2 * 1024 * 1024
  | favicon => 1 * 1024 * 1024
  end.

Definition invalid_type_message : string :=
  "Invalid file type. Please upload: " ++
  JS.join ", " (map (fun t => nth 1 (JS.split "/" t) "") validTypes).

Definition too_large_message (type : UploadType) : string :=
  "File size too large. Maximum " ++
  (match type with logo => "2MB" | favicon => "1MB" end) ++ " allowed.".

(** The multipart body: one part, named after the field, holding the
    file. *)
Definition FormData : Type := UploadType * File.

(** The payload of an upload reply is an object indexed by
    [`${type}_url`]. *)
Definition UploadReply : Type := Response.t (gmap string string).

(** The message of the [TypeError] raised by indexing a missing payload
    (the wording is the engine's). *)
Definition TypeError_message (key : string) : string :=
  "Cannot read properties of undefined (reading '" ++ key ++ "')".

(** What becomes of an updater handed to a state setter: React runs it
    after the handler has gone on, and it yields the next record or
    throws. *)
Inductive updated :=
| Updated (s : BasicSettingsData)
| UpdaterThrows (msg : string).

(** The updater of a successful upload,
    [(prev) => ({ ...prev, [`${type}_url`]: response.data.data[`${type}_url`] })].
    With a payload, an absent key reads as [undefined], which the string
    field of the record shows as the empty string.  Without a payload the
    read inside the updater throws a [TypeError]: this happens where React
    runs the updater, outside the handler's [try], and the record is not
    updated. *)
Definition url_updater (type : UploadType) (data : option (gmap string string))
    (prev : BasicSettingsData) : updated :=
  let key := type_name type ++ "_url" in
  match data with
  | Some payload => Updated (set_url type (default "" (payload !! key)) prev)
  | None => UpdaterThrows (TypeError_message key)
  end.

Definition handleFileUpload (inst : Axios.instance)
    (server : Axios.request FormData -> Axios.outcome UploadReply)
    (file : File) (type : UploadType) (st : state) : result FormData :=
  if negb (JS.includes validTypes (Settings.type file)) then
    Result (setError invalid_type_message st) [] []
  else if size file >? maxSize type then
    Result (setError (too_large_message type) st) [] []
  else
    let formData : FormData := (type, file) in
    let st1 := setError "" (setUploading type true st) in
    let req :=
      Axios.send inst Axios.POST ("/basic-settings/" ++ type_name type) formData
        {[ "Content-Type" := "multipart/form-data" ]} in
    let '(st2, armed) :=
      match server req with
      | Axios.Resolved r =>
          if Response.success r then
            (* [setSettings(updater)] only hands the updater over; the
               handler goes on to the message and the timer whatever
               the updater will do *)
            let st' :=
              match url_updater type (Response.data r) (settings st1) with
              | Updated s => setSettings s st1
              | UpdaterThrows _ => st1
              end in
            (setSuccess
               ((match type with logo => "Logo" | favicon => "Favicon" end)
                ++ " uploaded successfully!") st',
             [(3000, ClearSuccess)])
          else (st1, [])
      | Axios.Rejected err =>
          (setError (catch_message ("Failed to upload " ++ type_name type) err) st1, [])
      end in
    Result (setUploading type false st2) [req] armed.

(** *** handleSubmit *)

(** Truthiness of [settings.id]: an absent identifier and the number 0
    are falsy. *)
Definition truthy_id (i : option Z) : bool :=
  match i with
  | Some n => negb (n =? 0)
  | None => false
  end.

(** [`${settings.id}`] *)
Definition id_text (i : option Z) : string :=
  match i with
  | Some n => JS.Number_toString n
  | None => "undefined"
  end.

Definition SettingsReply : Type := Response.t BasicSettingsData.

Definition handleSubmit (inst : Axios.instance)
    (server : Axios.request BasicSettingsData -> Axios.outcome SettingsReply)
    (st : state) : result BasicSettingsData :=
  let current := settings st in
  let st1 := setSuccess "" (setError "" (setSaving true st)) in
  let req :=
    if truthy_id (id current)
    then Axios.put inst ("/basic-settings/" ++ id_text (id current)) current
    else Axios.post inst "/basic-settings" current in
  let '(st2, armed) :=
    match server req with
    | Axios.Resolved r =>
        if Response.success r then
          let st' := setSuccess "Settings saved successfully!" st1 in
          let st'' :=
            match Response.data r with
            | Some d => if negb (truthy_id (id current)) then setSettings d st' else st'
            | None => st'
            end in
          (st'', [(3000, ClearSuccess)])
        else (st1, [])
    | Axios.Rejected err =>
        (setError (catch_message "Failed to save settings" err) st1, [])
    end in
  Result (setSaving false st2) [req] armed.

(** *** fetchSettings *)

Definition setLoading (v : bool) (st : state) : state :=
  {| settings := settings st; loading := v; saving := saving st;
     error := error st; success := success st; uploading := uploading st |}.

(** The load on mount: one GET; the record is replaced when the reply
    reports success and carries a payload. *)
Definition fetchSettings (inst : Axios.instance)
    (server : Axios.request unit -> Axios.outcome SettingsReply)
    (st : state) : result unit :=
  let st1 := setLoading true st in
  let req := Axios.send inst Axios.GET "/basic-settings" tt ∅ in
  let st2 :=
    match server req with
    | Axios.Resolved r =>
        match Response.data r with
        | Some d => if Response.success r then setSettings d st1 else st1
        | None => st1
        end
    | Axios.Rejected err =>
        setError (catch_message "Failed to load settings" err) st1
    end in
  Result (setLoading false st2) [req] [].

(** *** handleChange, handleRichTextChange, handleRemoveFile *)

(** What [handleChange] reads of the event: [e.target.name],
    [e.target.value], [e.target.type] and [e.target.checked]. *)
Record ChangeEvent := {
  target_name : string;
  target_value : string;
  target_type : string;
  target_checked : bool
}.

(** The keys of the record that hold a string. *)
Definition text_fields : list string :=
  ["site_name"; "tagline"; "logo_url"; "favicon_url"; "contact_email";
   "contact_phone"; "contact_address"; "facebook_url"; "x_url";
   "instagram_url"; "meta_description"; "meta_keywords"; "meta_author";
   "google_analytics_id"; "copyright_text"].

(** [{ ...prev, [name]: value }] for a key that holds a string. *)
Definition assign_text (name value : string) (s : BasicSettingsData)
    : BasicSettingsData :=
  let pick (key old : string) := if String.eqb name key then value else old in
  {| id := id s;
     site_name := pick "site_name" (site_name s);
     tagline := pick "tagline" (tagline s);
     logo_url := pick "logo_url" (logo_url s);
     favicon_url := pick "favicon_url" (favicon_url s);
     contact_email := pick "contact_email" (contact_email s);
     contact_phone := pick "contact_phone" (contact_phone s);
     contact_address := pick "contact_address" (contact_address s);
     facebook_url := pick "facebook_url" (facebook_url s);
     x_url := pick "x_url" (x_url s);
     instagram_url := pick "instagram_url" (instagram_url s);
     meta_description := pick "meta_description" (meta_description s);
     meta_keywords := pick "meta_keywords" (meta_keywords s);
     meta_author := pick "meta_author" (meta_author s);
     google_analytics_id := pick "google_analytics_id" (google_analytics_id s);
     copyright_text := pick "copyright_text" (copyright_text s);
     maintenance_mode := maintenance_mode s |}.

(** [{ ...prev, maintenance_mode: checked }] *)
Definition assign_flag (checked : bool) (s : BasicSettingsData)
    : BasicSettingsData :=
  {| id := id s; site_name := site_name s; tagline := tagline s;
     logo_url := logo_url s; favicon_url := favicon_url s;
     contact_email := contact_email s; contact_phone := contact_phone s;
     contact_address := contact_address s; facebook_url := facebook_url s;
     x_url := x_url s; instagram_url := instagram_url s;
     meta_description := meta_description s; meta_keywords := meta_keywords s;
     meta_author := meta_author s; google_analytics_id := google_analytics_id s;
     copyright_text := copyright_text s; maintenance_mode := checked |}.

(** [handleChange]: a checkbox writes its [checked] flag under its name,
    any other control writes its value.  The result is [None] when the
    write would leave the record outside its interface (a flag under a key
    that holds a string, a string under the key of the flag or of the
    identifier, a key the interface does not have). *)
Definition handleChange (e : ChangeEvent) (st : state) : option state :=
  if String.eqb (target_type e) "checkbox" then
    if String.eqb (target_name e) "maintenance_mode"
    then Some (setSettings (assign_flag (target_checked e) (settings st)) st)
    else None
  else
    if JS.includes text_fields (target_name e)
    then Some (setSettings
                 (assign_text (target_name e) (target_value e) (settings st)) st)
    else None.

(** The controls the form attaches [handleChange] to, each with its
    [name] and its [type]. *)
Definition inputs : list (string * string) :=
  [("site_name", "text"); ("tagline", "text"); ("contact_email", "email");
   ("contact_phone", "tel"); ("contact_address", "textarea");
   ("facebook_url", "url"); ("x_url", "url"); ("instagram_url", "url");
   ("meta_keywords", "text"); ("meta_author", "text");
   ("google_analytics_id", "text"); ("copyright_text", "text");
   ("maintenance_mode", "checkbox")].

(** [handleRichTextChange], the editor's [onChange]. *)
Definition handleRichTextChange (content : string) (st : state) : state :=
  setSettings (assign_text "meta_description" content (settings st)) st.

(** [handleRemoveFile] (defined by the page, though no control calls
    it). *)
Definition handleRemoveFile (type : UploadType) (st : state) : state :=
  setSettings (set_url type "" (settings st)) st.

(** What can happen to the form once it is loaded: an edit through one of
    its controls, a change in the editor, a removal, an upload, a
    submission. *)
Inductive step (inst : Axios.instance) : state -> state -> Prop :=
| step_change e st st' :
    In (target_name e, target_type e) inputs ->
    handleChange e st = Some st' ->
    step inst st st'
| step_rich_text content st :
    step inst st (handleRichTextChange content st)
| step_remove type st :
    step inst st (handleRemoveFile type st)
| step_upload server file type st :
    step inst st (final (handleFileUpload inst server file type st))
| step_submit server st :
    step inst st (final (handleSubmit inst server st)).

(** *** FileUploadArea *)

(** The state of one upload area. *)
Record area := {
  dragActive : bool;
  preview : option string
}.

Section Area.

(** [FileReader.readAsDataURL]: the data URL of a file, or nothing when
    the read fails ([reader.result] is then [null]). *)
Variable readAsDataURL : File -> option string.

(** [handleDrag] *)
Definition handleDrag (isDragging : bool) (a : area) : area :=
  {| dragActive := isDragging; preview := preview a |}.

(** [handleFileSelect]: the first file of the selection is read for the
    preview and handed to [onFileUpload]. *)
Definition handleFileSelect (inst : Axios.instance)
    (server : Axios.request FormData -> Axios.outcome UploadReply)
    (files : list File) (type : UploadType) (a : area) (st : state)
    : area * result FormData :=
  match files with
  | file :: _ =>
      ({| dragActive := dragActive a; preview := readAsDataURL file |},
       handleFileUpload inst server file type st)
  | [] => (a, Result st [] [])
  end.

(** [handleDrop]: as [handleFileSelect], after the drag has ended. *)
Definition handleDrop (inst : Axios.instance)
    (server : Axios.request FormData -> Axios.outcome UploadReply)
    (files : list File) (type : UploadType) (a : area) (st : state)
    : area * result FormData :=
  handleFileSelect inst server files type (handleDrag false a) st.

End Area.

End Settings.

(** ** Regular expressions

    The fragment of JavaScript's pattern language the forms use:
    character classes, concatenation, alternation and repetition.  A
    pattern written between [^] and [$] (without the multiline flag) has to
    match the whole subject, which is what [test] decides, by taking the
    derivative of the pattern along the subject. *)

Module RegExp.

Inductive t :=
| Void                          (* matches nothing *)
| Eps                           (* matches the empty string *)
| Class (p : ascii -> bool)     (* one character of a class *)
| Seq (r s : t)
| Alt (r s : t)
| Star (r : t).

(** [r+] *)
Definition Plus (r : t) : t := Seq r (Star r).

Fixpoint nullable (r : t) : bool :=
  match r with
  | Void => false
  | Eps => true
  | Class _ => false
  | Seq r s => nullable r && nullable s
  | Alt r s => nullable r || nullable s
  | Star _ => true
  end.

Fixpoint deriv (c : ascii) (r : t) : t :=
  match r with
  | Void => Void
  | Eps => Void
  | Class p => if p c then Eps else Void
  | Seq r s =>
      if nullable r then Alt (Seq (deriv c r) s) (deriv c s)
      else Seq (deriv c r) s
  | Alt r s => Alt (deriv c r) (deriv c s)
  | Star r => Seq (deriv c r) (Star r)
  end.

(** [/^r$/.test(s)] *)
Fixpoint test (r : t) (s : string) : bool :=
  match s with
  | EmptyString => nullable r
  | String c rest => test (deriv c r) rest
  end.

(** The strings a pattern denotes. *)
Inductive matches : t -> string -> Prop :=
| m_eps : matches Eps ""
| m_class p c : p c = true -> matches (Class p) (String c "")
| m_seq r s u v : matches r u -> matches s v -> matches (Seq r s) (u ++ v)
| m_alt_l r s u : matches r u -> matches (Alt r s) u
| m_alt_r r s u : matches s u -> matches (Alt r s) u
| m_star_nil r : matches (Star r) ""
| m_star_cons r u v :
    matches r u -> matches (Star r) v -> matches (Star r) (u ++ v).

End RegExp.

(** ** The sign-up and sign-in forms ([Registration.tsx]) *)

(** [/^[^\s@]+@[^\s@]+\.[^\s@]+$/], the pattern both forms test the
    e-mail address against. *)
Module Email.

(** [[^\s@]] *)
Definition not_space_or_at (c : ascii) : bool :=
  negb (JS.is_space c || Ascii.eqb c "@").

Definition emailRegex : RegExp.t :=
  RegExp.Seq (RegExp.Plus (RegExp.Class not_space_or_at))
 (RegExp.Seq (RegExp.Class (Ascii.eqb "@"))
 (RegExp.Seq (RegExp.Plus (RegExp.Class not_space_or_at))
 (RegExp.Seq (RegExp.Class (Ascii.eqb "."))
             (RegExp.Plus (RegExp.Class not_space_or_at))))).

End Email.

Module SignUp.

Record FormData := {
  name : string;
  email : string;
  password : string;
  confirmPassword : string;
  role : string
}.

Record state := {
  formData : FormData;
  showPassword : bool;
  showConfirm : bool;
  loading : bool;
  error : string;
  success : string
}.

(** The values the [useState] calls start from. *)
Definition empty_form : FormData :=
  {| name := ""; email := ""; password := ""; confirmPassword := "";
     role := "user" |}.

Definition initial : state :=
  {| formData := empty_form; showPassword := false; showConfirm := false;
     loading := false; error := ""; success := "" |}.

Definition setFormData (v : FormData) (st : state) : state :=
  {| formData := v; showPassword := showPassword st;
     showConfirm := showConfirm st; loading := loading st;
     error := error st; success := success st |}.

Definition setShowPassword (v : bool) (st : state) : state :=
  {| formData := formData st; showPassword := v;
     showConfirm := showConfirm st; loading := loading st;
     error := error st; success := success st |}.

Definition setShowConfirm (v : bool) (st : state) : state :=
  {| formData := formData st; showPassword := showPassword st;
     showConfirm := v; loading := loading st;
     error := error st; success := success st |}.

Definition setLoading (v : bool) (st : state) : state :=
  {| formData := formData st; showPassword := showPassword st;
     showConfirm := showConfirm st; loading := v;
     error := error st; success := success st |}.

Definition setError (v : string) (st : state) : state :=
  {| formData := formData st; showPassword := showPassword st;
     showConfirm := showConfirm st; loading := loading st;
     error := v; success := success st |}.

Definition setSuccess (v : string) (st : state) : state :=
  {| formData := formData st; showPassword := showPassword st;
     showConfirm := showConfirm st; loading := loading st;
     error := error st; success := v |}.

(** [{ ...formData, [key]: value }]: a key the record has is
    overwritten; any other key adds a property nothing reads. *)
Definition assign (key value : string) (f : FormData) : FormData :=
  if String.eqb key "name" then
    {| name := value; email := email f; password := password f;
       confirmPassword := confirmPassword f; role := role f |}
  else if String.eqb key "email" then
    {| name := name f; email := value; password := password f;
       confirmPassword := confirmPassword f; role := role f |}
  else if String.eqb key "password" then
    {| name := name f; email := email f; password := value;
       confirmPassword := confirmPassword f; role := role f |}
  else if String.eqb key "confirmPassword" then
    {| name := name f; email := email f; password := password f;
       confirmPassword := value; role := role f |}
  else if String.eqb key "role" then
    {| name := name f; email := email f; password := password f;
       confirmPassword := confirmPassword f; role := value |}
  else f.

(** [handleChange], called with [e.target.name] and [e.target.value]. *)
Definition handleChange (target_name target_value : string) (st : state) : state :=
  setError "" (setFormData (assign target_name target_value (formData st)) st).

(** The [name] attributes of the inputs the form renders; [handleChange]
    is attached to these four and to nothing else. *)
Definition input_names : list string :=
  ["name"; "email"; "password"; "confirmPassword"].

(** The body of the registration request. *)
Record Body := {
  body_name : string;
  body_email : string;
  body_password : string;
  body_role : string
}.

(** [setTimeout(() => router.push(route), ms)] *)
Inductive callback := RouterPush (route : string).

Record result := Result {
  final : state;
  sent : list (Axios.request Body);
  timers : list (Z * callback)
}.

Definition catch_message (err : Axios.error) : string :=
  match err with
  | Axios.Axios _ => JS.or_else (Axios.response_message err) "Registration failed"
  | Axios.Native m => m
  | Axios.Thrown => "An unexpected error occurred"
  end.

Definition handleRegistration (inst : Axios.instance)
    (server : Axios.request Body -> Axios.outcome (Response.t unit))
    (st : state) : result :=
  let f := formData st in
  if JS.falsy (name f) || JS.falsy (email f) || JS.falsy (password f) then
    Result (setError "All fields are required" st) [] []
  else if negb (RegExp.test Email.emailRegex (email f)) then
    Result (setError "Please enter a valid email address" st) [] []
  else if Z.of_nat (String.length (password f)) <? 6 then
    Result (setError "Password must be at least 6 characters long" st) [] []
  else if negb (String.eqb (password f) (confirmPassword f)) then
    Result (setError "Passwords do not match" st) [] []
  else
    let st1 := setSuccess "" (setError "" (setLoading true st)) in
    let req :=
      Axios.post inst "/users/registration"
        {| body_name := name f; body_email := email f;
           body_password := password f; body_role := role f |} in
    let '(st2, armed) :=
      match server req with
      | Axios.Resolved r =>
          if Response.success r then
            (setFormData empty_form
               (setSuccess "Registration successful! Redirecting to login..." st1),
             [(2000, RouterPush "/")])
          else (st1, [])
      | Axios.Rejected err => (setError (catch_message err) st1, [])
      end in
    Result (setLoading false st2) [req] armed.

(** What the user can do with the form: type into one of its inputs,
    toggle the visibility of either password, or submit. *)
Inductive step (inst : Axios.instance) : state -> state -> Prop :=
| step_change key value st :
    In key input_names -> step inst st (handleChange key value st)
| step_show_password st :
    step inst st (setShowPassword (negb (showPassword st)) st)
| step_show_confirm st :
    step inst st (setShowConfirm (negb (showConfirm st)) st)
| step_submit server st :
    step inst st (final (handleRegistration inst server st)).

(** The states the form can be in. *)
Inductive reachable (inst : Axios.instance) : state -> Prop :=
| reach_initial : reachable inst initial
| reach_step st st' : reachable inst st -> step inst st st' -> reachable inst st'.

End SignUp.

Module SignIn.

(** [interface User] of the site header, the record a successful login
    returns and the header reads back from storage. *)
Inductive Role := role_user | role_admin.

Record User := {
  user_id : Z;
  user_name : string;
  user_email : string;
  user_role : Role
}.

Record FormData := {
  email : string;
  password : string
}.

Record state := {
  formData : FormData;
  showPassword : bool;
  loading : bool;
  error : string;
  success : string
}.

Definition initial : state :=
  {| formData := {| email := ""; password := "" |}; showPassword := false;
     loading := false; error := ""; success := "" |}.

Definition setFormData (v : FormData) (st : state) : state :=
  {| formData := v; showPassword := showPassword st; loading := loading st;
     error := error st; success := success st |}.

Definition setLoading (v : bool) (st : state) : state :=
  {| formData := formData st; showPassword := showPassword st; loading := v;
     error := error st; success := success st |}.

Definition setError (v : string) (st : state) : state :=
  {| formData := formData st; showPassword := showPassword st;
     loading := loading st; error := v; success := success st |}.

Definition setSuccess (v : string) (st : state) : state :=
  {| formData := formData st; showPassword := showPassword st;
     loading := loading st; error := error st; success := v |}.

(** The body of the login request. *)
Record Body := {
  body_email : string;
  body_password : string
}.

(** The login reply: the envelope's flag and message, and next to them
    the token and the user record, either of which a reply may lack. *)
Record Reply := {
  reply_success : bool;
  reply_message : string;
  token : option string;
  user : option User
}.

Inductive callback := RouterPush (route : string).

(** What the handler leaves behind: the component state, the browser's
    local storage, the shared client, the requests issued and the timers
    armed. *)
Record result := Result {
  final : state;
  localStorage : gmap string string;
  axiosInstance : Axios.instance;
  sent : list (Axios.request Body);
  timers : list (Z * callback)
}.

(** The string a value is stored or interpolated as; [undefined] prints
    as its name. *)
Definition String_of (v : option string) : string := default "undefined" v.

Definition catch_message (err : Axios.error) : string :=
  match err with
  | Axios.Axios e =>
      match Axios.response e with
      | Some (Some m) => m
      | Some None => "Login failed. Please try again."
      | None =>
          if Axios.has_request e
          then "No response from server. Please check your connection."
          else "An unexpected error occurred."
      end
  | _ => "An unexpected error occurred."
  end.

Section Handler.

(** [JSON.stringify] on a user record. *)
Variable JSON_stringify : User -> string.

Definition handleLogin (inst : Axios.instance) (storage : gmap string string)
    (server : Axios.request Body -> Axios.outcome Reply)
    (st : state) : result :=
  let f := formData st in
  if JS.falsy (email f) || JS.falsy (password f) then
    Result (setError "Email and password are required" st) storage inst [] []
  else if negb (RegExp.test Email.emailRegex (email f)) then
    Result (setError "Please enter a valid email address" st) storage inst [] []
  else
    let st1 := setSuccess "" (setError "" (setLoading true st)) in
    let req :=
      Axios.post inst "/users/login"
        {| body_email := email f; body_password := password f |} in
    match server req with
    | Axios.Resolved r =>
        if reply_success r then
          let storage1 := <[ "token" := String_of (token r) ]> storage in
          let storage2 :=
            <[ "user" := String_of (JSON_stringify <$> user r) ]> storage1 in
          let inst' :=
            Axios.Instance (Axios.baseURL inst)
              (<[ "Authorization" := "Bearer " ++ String_of (token r) ]>
                 (Axios.common inst)) in
          let st2 :=
            setFormData {| email := ""; password := "" |}
              (setSuccess "Login successful! Redirecting..." st1) in
          Result (setLoading false st2) storage2 inst' [req]
            [(1500, RouterPush "/")]
        else Result (setLoading false st1) storage inst [req] []
    | Axios.Rejected err =>
        Result (setLoading false (setError (catch_message err) st1))
          storage inst [req] []
    end.

End Handler.

End SignIn.

(** ** The site header (session part) *)

Module Header.

(** [isLoggedIn] and [user], the two pieces of state the header derives
    from storage. *)
Record session := {
  isLoggedIn : bool;
  user : option SignIn.User
}.

Definition logged_out : session := {| isLoggedIn := false; user := None |}.

Section Mount.

(** [JSON.parse] on the stored text; [None] when it throws. *)
Variable JSON_parse : string -> option SignIn.User.

(** The effect that checks the login status on mount.  When the stored
    text does not parse, the effect throws before it sets any state. *)
Definition check_login (storage : gmap string string) : session :=
  match storage !! "token", storage !! "user" with
  | Some token, Some userData =>
      if negb (JS.falsy token) && negb (JS.falsy userData) then
        match JSON_parse userData with
        | Some parsedUser => {| isLoggedIn := true; user := Some parsedUser |}
        | None => logged_out
        end
      else logged_out
  | _, _ => logged_out
  end.

End Mount.

(** [handleLogout]: both entries leave storage and the header shows the
    logged-out state. *)
Definition handleLogout (storage : gmap string string)
    : gmap string string * session :=
  (delete "user" (delete "token" storage), logged_out).

(** The search box. *)
Record search_state := {
  searchQuery : string;
  showSearch : bool
}.

(** [handleSearch]: a query that is not blank navigates to the search
    route and resets the box; the second component is the route pushed. *)
Definition handleSearch (st : search_state) : search_state * option string :=
  if negb (JS.falsy (JS.trim (searchQuery st))) then
    ({| searchQuery := ""; showSearch := false |},
     Some ("/search?q=" ++ JS.encodeURIComponent (searchQuery st)))
  else (st, None).

End Header.

(** ** The document tree

    What the editor's handlers see of the browser: the nodes of a tree,
    the [innerHTML] accessor, the clipboard and the selection; and the two
    edits the paste handler makes to a pasted tree, as functions of the
    tree. *)

Module Dom.

(** The DOM as the handlers see it: text, comments, and elements with
    their tag name, their attributes in order, and their children. *)
#[local] Unset Elimination Schemes.
Inductive node :=
| Text (data : string)
| Comment (data : string)
| Element (tagName : string) (attributes : list (string * string))
          (childNodes : list node).
#[local] Set Elimination Schemes.

(** Induction on a node with the hypothesis available for every child. *)
Section node_ind.
Variable P : node -> Prop.
Hypothesis P_Text : forall data, P (Text data).
Hypothesis P_Comment : forall data, P (Comment data).
Hypothesis P_Element :
  forall tagName attributes childNodes,
    Forall P childNodes -> P (Element tagName attributes childNodes).

Fixpoint node_ind (n : node) : P n :=
  match n with
  | Text data => P_Text data
  | Comment data => P_Comment data
  | Element tagName attributes childNodes =>
      P_Element tagName attributes childNodes
        ((fix all (l : list node) : Forall P l :=
            match l with
            | [] => @List.Forall_nil _ P
            | c :: rest => @List.Forall_cons _ P c rest (node_ind c) (all rest)
            end) childNodes)
  end.
End node_ind.



(** [window.getSelection()], as far as the handlers inspect it. *)
Record Selection := {
  rangeCount : nat;
  isCollapsed : bool;
  selectedText : string      (* [selection.toString()] *)
}.

(** The selector ["script, style, meta, link"]. *)
Definition removedTags : list string := ["script"; "style"; "meta"; "link"].

Definition allowedTags : list string :=
  ["p"; "br"; "b"; "strong"; "i"; "em"; "u"; "a"; "ul"; "ol"; "li";
   "h1"; "h2"; "h3"; "h4"; "h5"; "h6"; "blockquote"; "pre"; "code"].

(** An element matches the selector by its lower-cased tag name. *)
Definition selected (tagName : string) : bool :=
  JS.includes removedTags (JS.toLowerCase tagName).

(** [allowedTags.includes(el.tagName.toLowerCase())] *)
Definition allowed (tagName : string) : bool :=
  JS.includes allowedTags (JS.toLowerCase tagName).

(** The tree once every element matching the selector has been removed:
    a matching element leaves the tree, and its subtree with it. *)
Fixpoint remove_selected (n : node) : list node :=
  match n with
  | Element tagName attributes childNodes =>
      if selected tagName then []
      else [Element tagName attributes (flat_map remove_selected childNodes)]
  | _ => [n]
  end.

(** The tree once every element outside the allow-list has been replaced
    by its children: an element is visited after its ancestors and, when
    it is replaced, hands its children (still to be visited) to its
    parent. *)
Fixpoint unwrap (n : node) : list node :=
  match n with
  | Element tagName attributes childNodes =>
      if allowed tagName
      then [Element tagName attributes (flat_map unwrap childNodes)]
      else flat_map unwrap childNodes
  | _ => [n]
  end.

(** Both edits, one after the other. *)
Definition sanitize (nodes : list node) : list node :=
  flat_map unwrap (flat_map remove_selected nodes).


End Dom.

(** ** The loops of the paste handler on a live tree

    The two [forEach] loops of the paste handler run over a list of
    elements that [querySelectorAll] fixes beforehand, and edit the tree
    the elements hang in, one element at a time.  To run them as written
    the nodes need identity: here every element carries a label, and an
    element is found in the tree by its label. *)

Module Live.

#[local] Unset Elimination Schemes.
Inductive node :=
| Text (data : string)
| Comment (data : string)
| Element (label : nat) (tagName : string) (attributes : list (string * string))
          (childNodes : list node).
#[local] Set Elimination Schemes.

Section node_ind.
Variable P : node -> Prop.
Hypothesis P_Text : forall data, P (Text data).
Hypothesis P_Comment : forall data, P (Comment data).
Hypothesis P_Element :
  forall label tagName attributes childNodes,
    Forall P childNodes -> P (Element label tagName attributes childNodes).

Fixpoint node_ind (n : node) : P n :=
  match n with
  | Text data => P_Text data
  | Comment data => P_Comment data
  | Element label tagName attributes childNodes =>
      P_Element label tagName attributes childNodes
        ((fix all (l : list node) : Forall P l :=
            match l with
            | [] => @List.Forall_nil _ P
            | c :: rest => @List.Forall_cons _ P c rest (node_ind c) (all rest)
            end) childNodes)
  end.
End node_ind.

(** The tree without its labels. *)
Fixpoint erase (n : node) : Dom.node :=
  match n with
  | Text data => Dom.Text data
  | Comment data => Dom.Comment data
  | Element _ tagName attributes childNodes =>
      Dom.Element tagName attributes (map erase childNodes)
  end.

(** [querySelectorAll("*")]: the elements below a node in document order,
    as a list that later edits of the tree do not change. *)
Fixpoint querySelectorAll (n : node) : list (nat * string) :=
  match n with
  | Element label tagName _ childNodes =>
      (label, tagName) :: flat_map querySelectorAll childNodes
  | _ => []
  end.

Definition labels (forest : list node) : list nat :=
  map fst (flat_map querySelectorAll forest).

(** [el.replaceWith(...el.childNodes)] when [keep] is set, [el.remove()]
    when it is not: the element labelled [target] gives way to its
    children, or to nothing; a label the tree no longer holds changes
    nothing. *)
Fixpoint detach (keep : bool) (target : nat) (n : node) : list node :=
  match n with
  | Element label tagName attributes childNodes =>
      if (label =? target)%nat then (if keep then childNodes else [])
      else [Element label tagName attributes (flat_map (detach keep target) childNodes)]
  | _ => [n]
  end.

(** [tempDiv.querySelectorAll("script, style, meta, link")
      .forEach((el) => el.remove())] *)
Definition remove_loop (forest : list node) : list node :=
  fold_left (fun tree el => flat_map (detach false (fst el)) tree)
    (List.filter (fun el => Dom.selected (snd el))
       (flat_map querySelectorAll forest))
    forest.

(** [tempDiv.querySelectorAll("*").forEach((el) => { if
      (!allowedTags.includes(el.tagName.toLowerCase()))
        el.replaceWith(...el.childNodes) })] *)
Definition unwrap_loop (forest : list node) : list node :=
  fold_left (fun tree el =>
               if negb (Dom.allowed (snd el))
               then flat_map (detach true (fst el)) tree
               else tree)
    (flat_map querySelectorAll forest)
    forest.

Definition sanitize_loop (forest : list node) : list node :=
  unwrap_loop (remove_loop forest).

(** The tree with the elements of a set of labels detached all at once. *)
Fixpoint cut (keep : bool) (S : gset nat) (n : node) : list node :=
  match n with
  | Element label tagName attributes childNodes =>
      if decide (label ∈ S)
      then (if keep then flat_map (cut keep S) childNodes else [])
      else [Element label tagName attributes (flat_map (cut keep S) childNodes)]
  | _ => [n]
  end.

(** Labelling a tree: the elements are numbered in document order, from a
    given number on; the result comes with the next free number. *)
Section attach.
Variable attach : Dom.node -> nat -> node * nat.

Fixpoint attach_all (nodes : list Dom.node) (next : nat) : list node * nat :=
  match nodes with
  | [] => ([], next)
  | n :: rest =>
      let '(n', next1) := attach n next in
      let '(rest', next2) := attach_all rest next1 in
      (n' :: rest', next2)
  end.
End attach.

Fixpoint attach (n : Dom.node) (next : nat) : node * nat :=
  match n with
  | Dom.Text data => (Text data, next)
  | Dom.Comment data => (Comment data, next)
  | Dom.Element tagName attributes childNodes =>
      let '(children, next') := attach_all attach childNodes (S next) in
      (Element next tagName attributes children, next')
  end.


End Live.

(** Both loops follow one scheme on the tree: an element whose tag name
    passes a test gives way to its (processed) children or to nothing. *)
Fixpoint prune (keep : bool) (p : string -> bool) (n : Dom.node)
    : list Dom.node :=
  match n with
  | Dom.Element tagName attributes childNodes =>
      if p tagName
      then (if keep then flat_map (prune keep p) childNodes else [])
      else [Dom.Element tagName attributes (flat_map (prune keep p) childNodes)]
  | _ => [n]
  end.

(** ** The rich-text editor ([RichTextEditor.tsx]) *)

Module RichTextEditor.

(** *** handlePaste *)



(** *** handleAddLink *)

(** A statement either completes or throws. *)
Inductive completion (A : Type) :=
| Normal (a : A)
| Throw (e : string).
Arguments Normal {A}.
Arguments Throw {A}.

Definition bind {A B} (c : completion A) (k : A -> completion B) : completion B :=
  match c with
  | Normal a => k a
  | Throw e => Throw e
  end.

(** [try { body } catch { handler }] *)
Definition try_catch {A} (body : completion A) (handler : completion A)
    : completion A :=
  match body with
  | Normal a => Normal a
  | Throw _ => handler
  end.

(** The result of [new URL(...)], of which the handler reads the
    protocol (the scheme followed by a colon). *)
Record URL := { protocol : string }.

Record link_state := {
  showLinkInput : bool;
  linkUrl : string;
  linkText : string
}.

Inductive action :=
| Alert (msg : string)
| Focus
| ReplaceSelection (link : Dom.node)          (* [deleteContents], [insertNode(link)] *)
| InsertTextNode (data : string)          (* the space after the link *)
| ExecCommand (command value : string)
| UpdateContent.

Definition dq : string := String "034" "".

(** The [a] element the handler creates. *)
Definition link_element (href displayText : string) : Dom.node :=
  Dom.Element "A"
    [("href", href); ("target", "_blank"); ("rel", "noopener noreferrer");
     ("class", "rich-text-link")]
    [Dom.Text displayText].

(** The markup handed to [insertHTML]. *)
Definition link_markup (href displayText : string) : string :=
  "<a href=" ++ dq ++ href ++ dq ++ " target=" ++ dq ++ "_blank" ++ dq
  ++ " rel=" ++ dq ++ "noopener noreferrer" ++ dq
  ++ " class=" ++ dq ++ "rich-text-link" ++ dq ++ ">"
  ++ displayText ++ "</a>&nbsp;".

(** The handler calls no function of its own that throws, so [Normal]
    marks every path through it; [new URL] and the protocol check throw
    inside [try]. *)
Definition handleAddLink (URL_new : string -> completion URL)
    (editor_mounted : bool) (selection : option Dom.Selection)
    (st : link_state) : completion (link_state * list action) :=
  if JS.falsy (JS.trim (linkUrl st)) then
    Normal (st, [Alert "Please enter a URL"])
  else
    let checked :=
      try_catch
        (bind (URL_new (linkUrl st)) (fun url =>
           if negb (JS.startsWith "http" (protocol url))
           then Throw "Invalid protocol"
           else Normal true))
        (Normal false) in
    bind checked (fun ok =>
      if negb ok then
        Normal (st, [Alert
          "Please enter a valid URL starting with http:// or https://"])
      else if negb editor_mounted then Normal (st, [])
      else
        match selection with
        | None => Normal (st, [Focus])
        | Some sel =>
            let displayText :=
              JS.or_else (Dom.selectedText sel)
                (JS.or_else (linkText st) (linkUrl st)) in
            let inserted :=
              if (0 <? Dom.rangeCount sel)%nat && negb (Dom.isCollapsed sel)
              then [ReplaceSelection (link_element (linkUrl st) displayText);
                    InsertTextNode " "]
              else [ExecCommand "insertHTML" (link_markup (linkUrl st) displayText)] in
            Normal ({| showLinkInput := false; linkUrl := ""; linkText := "" |},
                    Focus :: inserted ++ [UpdateContent])
        end).

(** Whether a run of the handler put a link into the editor. *)
Definition is_link_insertion (a : action) : bool :=
  match a with
  | ReplaceSelection _ => true
  | ExecCommand _ _ => true
  | _ => false
  end.

Definition inserts_link (r : completion (link_state * list action)) : bool :=
  match r with
  | Normal (_, acts) => existsb is_link_insertion acts
  | Throw _ => false
  end.

Definition alerts (r : completion (link_state * list action)) : bool :=
  match r with
  | Normal (_, [Alert _]) => true
  | _ => false
  end.

(** *** updateCounts *)

(** [text.trim().split(/\s+/).filter((word) => word.length > 0)] *)
Definition words (text : string) : list string :=
  List.filter (fun word => (0 <? String.length word)%nat)
    (JS.split_spaces (JS.trim text)).

(** The word count and the character count set from the editor's
    [innerText]. *)
Definition updateCounts (innerText : string) : nat * nat :=
  (length (words innerText), String.length innerText).

(** *** The toolbar commands *)

(** The body the command handlers share: without an editor nothing
    happens; otherwise the editor is focused, the command is executed and
    the content is reported. *)
Definition exec (editor_mounted : bool) (command value : string) : list action :=
  if editor_mounted then [Focus; ExecCommand command value; UpdateContent]
  else [].

(** [handleAlign] *)
Definition handleAlign (editor_mounted : bool) (alignment : string) : list action :=
  exec editor_mounted ("justify" ++ JS.capitalize alignment) "".

(** The alignments the toolbar offers. *)
Definition toolbar_alignments : list string :=
  ["left"; "center"; "right"; "justify"].

(** The commands whose state [handleSelectionChange] queries to mark the
    active alignment. *)
Definition queried_alignments : list string :=
  ["justifyLeft"; "justifyCenter"; "justifyRight"; "justifyFull"].

(** [for (let i = 0; i < bound; i++) body], on an accumulator. *)
Fixpoint for_loop {A} (rounds : nat) (i : Z) (body : Z -> A -> A) (a : A) : A :=
  match rounds with
  | O => a
  | S rounds' => for_loop rounds' (i + 1) body (body i a)
  end.

Definition for_upto {A} (bound : Z) (body : Z -> A -> A) (a : A) : A :=
  for_loop (Z.to_nat bound) 0 body a.

Definition table_open : string :=
  "<table style=" ++ dq
  ++ "border-collapse: collapse; width: 100%; margin: 10px 0;" ++ dq ++ ">".

Definition table_cell : string :=
  "<td style=" ++ dq ++ "border: 1px solid #ddd; padding: 8px;" ++ dq
  ++ ">Cell</td>".

(** [insertTable] *)
Definition insertTable (editor_mounted : bool) (rows cols : Z) : list action :=
  if editor_mounted then
    let tableHTML := table_open in
    let tableHTML :=
      for_upto rows (fun _ html =>
        let html := html ++ "<tr>" in
        let html := for_upto cols (fun _ html => html ++ table_cell) html in
        html ++ "</tr>") tableHTML in
    let tableHTML := tableHTML ++ "</table><br>" in
    [Focus; ExecCommand "insertHTML" tableHTML; UpdateContent]
  else [].

(** *** handleImageUpload *)

(** What the handler does with the selection of the file input: nothing,
    an alert, or the start of a read (after which the input is reset). *)
Inductive image_step :=
| NoFile
| ImageAlert (msg : string)
| ReadAsDataURL (file : Settings.File).

Definition handleImageUpload (files : list Settings.File) : image_step :=
  match files with
  | [] => NoFile
  | file :: _ =>
      if negb (JS.startsWith "image/" (Settings.type file)) then
        ImageAlert "Please select an image file"
      else if Settings.size file >? 5 * 1024 * 1024 then
        ImageAlert "Image size should be less than 5MB"
      else ReadAsDataURL file
  end.

End RichTextEditor.

(** ** Vocabulary of the specification and sample data *)

Module Sample.

(** A client with no default header. *)
Definition client : Axios.instance := Axios.Instance "http://localhost:5000/api" ∅.

(** A settings record as the form starts with, with a chosen identifier. *)
Definition record (i : option Z) : Settings.BasicSettingsData :=
  {| Settings.id := i; Settings.site_name := "Daily News"; Settings.tagline := "";
     Settings.logo_url := ""; Settings.favicon_url := "";
     Settings.contact_email := ""; Settings.contact_phone := "";
     Settings.contact_address := ""; Settings.facebook_url := "";
     Settings.x_url := ""; Settings.instagram_url := "";
     Settings.meta_description := ""; Settings.meta_keywords := "";
     Settings.meta_author := ""; Settings.google_analytics_id := "";
     Settings.copyright_text := ""; Settings.maintenance_mode := false |}.

Definition settings_form (i : option Z) : Settings.state :=
  {| Settings.settings := record i; Settings.loading := false;
     Settings.saving := false; Settings.error := ""; Settings.success := "";
     Settings.uploading :=
       {| Settings.uploading_logo := false; Settings.uploading_favicon := false |} |}.

(** A service that accepts every record and returns it under identifier 7. *)
Definition accepting : Axios.request Settings.BasicSettingsData ->
                       Axios.outcome Settings.SettingsReply :=
  fun _ => Axios.Resolved (Response.Make true "saved" (Some (record (Some 7)))).

(** A service that answers every submission with an error status. *)
Definition refusing : Axios.request Settings.BasicSettingsData ->
                      Axios.outcome Settings.SettingsReply :=
  fun _ => Axios.Rejected
             (Axios.Axios {| Axios.response := Some (Some "Site name is required");
                             Axios.has_request := true;
                             Axios.message := "Request failed with status code 400" |}).

(** An upload service that stores every file. *)
Definition storing : Axios.request Settings.FormData ->
                     Axios.outcome Settings.UploadReply :=
  fun _ => Axios.Resolved
             (Response.Make true "uploaded"
                (Some {[ "logo_url" := "/uploads/logo.png" ]})).

Definition pdf_file : Settings.File :=
  {| Settings.file_name := "report.pdf"; Settings.type := "application/pdf";
     Settings.size := 1000 |}.

Definition big_png : Settings.File :=
  {| Settings.file_name := "logo.png"; Settings.type := "image/png";
     Settings.size := 3 * 1024 * 1024 |}.

(** The sign-up form after the user has typed into its four inputs. *)
Definition filled_sign_up : SignUp.state :=
  SignUp.handleChange "confirmPassword" "secret1"
    (SignUp.handleChange "password" "secret1"
       (SignUp.handleChange "email" "ann@example.com"
          (SignUp.handleChange "name" "Ann" SignUp.initial))).

(** The sign-up form with an address that lacks its at sign. *)
Definition malformed_sign_up : SignUp.state :=
  SignUp.handleChange "email" "not-an-email" filled_sign_up.

Definition registering : Axios.request SignUp.Body -> Axios.outcome (Response.t unit) :=
  fun _ => Axios.Resolved (Response.Make true "registered" None).

Definition sign_in_form (email password : string) : SignIn.state :=
  {| SignIn.formData := {| SignIn.email := email; SignIn.password := password |};
     SignIn.showPassword := false; SignIn.loading := false;
     SignIn.error := ""; SignIn.success := "" |}.

Definition ann : SignIn.User :=
  {| SignIn.user_id := 12; SignIn.user_name := "Ann";
     SignIn.user_email := "ann@example.com"; SignIn.user_role := SignIn.role_user |}.

(** A login service that knows Ann. *)
Definition authenticating : Axios.request SignIn.Body -> Axios.outcome SignIn.Reply :=
  fun _ => Axios.Resolved
             {| SignIn.reply_success := true; SignIn.reply_message := "welcome";
                SignIn.token := Some "tok-123"; SignIn.user := Some ann |}.

(** A printer for user records whose strings need no escaping. *)
Definition stringify (u : SignIn.User) : string :=
  let q := RichTextEditor.dq in
  "{" ++ q ++ "id" ++ q ++ ":" ++ JS.Number_toString (SignIn.user_id u)
  ++ "," ++ q ++ "name" ++ q ++ ":" ++ q ++ SignIn.user_name u ++ q
  ++ "," ++ q ++ "email" ++ q ++ ":" ++ q ++ SignIn.user_email u ++ q
  ++ "," ++ q ++ "role" ++ q ++ ":" ++ q
  ++ (match SignIn.user_role u with
      | SignIn.role_user => "user"
      | SignIn.role_admin => "admin"
      end) ++ q ++ "}".

(** A stand-in for the URL constructor: it reads the scheme the way the
    URL standard does (a letter, then letters, digits, "+", "-" or ".", up
    to the first colon, lower-cased) and accepts whatever follows; a string
    without a scheme throws. *)
Definition is_alpha (c : ascii) : bool :=
  let n := nat_of_ascii (JS.lower_char c) in (97 <=? n)%nat && (n <=? 122)%nat.

Definition is_scheme_char (c : ascii) : bool :=
  let n := nat_of_ascii c in
  is_alpha c || ((48 <=? n)%nat && (n <=? 57)%nat)
  || Ascii.eqb c "+" || Ascii.eqb c "-" || Ascii.eqb c ".".

Fixpoint scheme_go (acc s : string) : option string :=
  match s with
  | EmptyString => None
  | String c rest =>
      if Ascii.eqb c ":" then Some (String.rev acc)
      else if is_scheme_char c then scheme_go (String (JS.lower_char c) acc) rest
      else None
  end.

Definition URL_new (s : string) : RichTextEditor.completion RichTextEditor.URL :=
  match s with
  | String c _ =>
      if is_alpha c then
        match scheme_go "" s with
        | Some scheme =>
            RichTextEditor.Normal {| RichTextEditor.protocol := scheme ++ ":" |}
        | None => RichTextEditor.Throw "Invalid URL"
        end
      else RichTextEditor.Throw "Invalid URL"
  | EmptyString => RichTextEditor.Throw "Invalid URL"
  end.

(** A caret in the editor: one range, nothing selected. *)
Definition caret : Dom.Selection :=
  {| Dom.rangeCount := 1; Dom.isCollapsed := true; Dom.selectedText := "" |}.

Definition link_form (url : string) : RichTextEditor.link_state :=
  {| RichTextEditor.showLinkInput := true; RichTextEditor.linkUrl := url;
     RichTextEditor.linkText := "" |}.

(** A service that reports success for every record and returns no
    payload. *)
Definition acknowledging : Axios.request Settings.BasicSettingsData ->
                           Axios.outcome Settings.SettingsReply :=
  fun _ => Axios.Resolved (Response.Make true "saved" None).

(** A service whose replies arrive without the success flag. *)
Definition declining : Axios.request Settings.BasicSettingsData ->
                       Axios.outcome Settings.SettingsReply :=
  fun _ => Axios.Resolved (Response.Make false "not saved" None).

Definition small_png : Settings.File :=
  {| Settings.file_name := "logo.png"; Settings.type := "image/png";
     Settings.size := 2 * 1024 * 1024 |}.

(** A reader that yields a data URL for every file. *)
Definition reading (file : Settings.File) : option string :=
  Some ("data:" ++ Settings.type file ++ ";base64,AAAA").

(** [JSON.parse] for the one text the sample login stores. *)
Definition parse (text : string) : option SignIn.User :=
  if String.eqb text (stringify ann) then Some ann else None.

(** A login service whose replies arrive without the success flag. *)
Definition denying : Axios.request SignIn.Body -> Axios.outcome SignIn.Reply :=
  fun _ => Axios.Resolved
             {| SignIn.reply_success := false;
                SignIn.reply_message := "Invalid credentials";
                SignIn.token := None; SignIn.user := None |}.

(** A live tree with distinct labels: a [div] around a paragraph and a
    script. *)
Definition live_card : list Live.node :=
  [Live.Element 4 "DIV" []
     [Live.Element 9 "P" [("onclick", "track()")] [Live.Text "news"];
      Live.Element 2 "SCRIPT" [] [Live.Text "alert(1)"]]].






End Sample.

(** A submission has failed when the request was rejected (no reply, or a
    reply with an error status) or when the reply's success flag is not
    set. *)
Definition submission_failed {T} (o : Axios.outcome (Response.t T)) : Prop :=
  match o with
  | Axios.Rejected _ => True
  | Axios.Resolved r => Response.success r = false
  end.

(** The client-side checks of the sign-up form, as the specification
    lists them: a form state is invalid when a required field is empty, the
    address fails the e-mail test, the password has fewer than 6
    characters, or password and confirmation differ. *)
Definition registration_invalid (f : SignUp.FormData) : Prop :=
  SignUp.name f = "" \/ SignUp.email f = "" \/ SignUp.password f = ""
  \/ RegExp.test Email.emailRegex (SignUp.email f) = false
  \/ (String.length (SignUp.password f) < 6)%nat
  \/ SignUp.password f <> SignUp.confirmPassword f.

(** The checks of the sign-in form: a field is empty or the address fails
    the e-mail test. *)
Definition login_invalid (f : SignIn.FormData) : Prop :=
  SignIn.email f = "" \/ SignIn.password f = ""
  \/ RegExp.test Email.emailRegex (SignIn.email f) = false.





(** The busy flag of one upload field. *)
Definition flag_of (type : Settings.UploadType) (st : Settings.state) : bool :=
  match type with
  | Settings.logo => Settings.uploading_logo (Settings.uploading st)
  | Settings.favicon => Settings.uploading_favicon (Settings.uploading st)
  end.

Definition other_field (type : Settings.UploadType) : Settings.UploadType :=
  match type with
  | Settings.logo => Settings.favicon
  | Settings.favicon => Settings.logo
  end.

(** A file passes the two checks of the settings upload. *)
Definition upload_accepted (file : Settings.File) (type : Settings.UploadType)
    : Prop :=
  In (Settings.type file) Settings.validTypes
  /\ Settings.size file <= Settings.maxSize type.

(** The characters of a string that are not white space. *)
Fixpoint strip_spaces (s : string) : string :=
  match s with
  | EmptyString => EmptyString
  | String c rest =>
      if JS.is_space c then strip_spaces rest else String c (strip_spaces rest)
  end.

(** A character that stands for itself in the query of a URL, or opens
    an escape. *)
Definition query_safe (c : ascii) : bool := JS.unreserved c || Ascii.eqb c "%".

(** A string written a number of times in a row. *)
Fixpoint repeat_string (n : nat) (s : string) : string :=
  match n with
  | O => EmptyString
  | S n' => s ++ repeat_string n' s
  end.

(** The text nodes of a tree that lie outside every script, style, meta
    and link element, in document order. *)
Fixpoint kept_texts (n : Dom.node) : list string :=
  match n with
  | Dom.Text data => [data]
  | Dom.Comment _ => []
  | Dom.Element tagName _ childNodes =>
      if Dom.selected tagName then [] else flat_map kept_texts childNodes
  end.

(** The text nodes of a tree, in document order. *)
Fixpoint texts (n : Dom.node) : list string :=
  match n with
  | Dom.Text data => [data]
  | Dom.Comment _ => []
  | Dom.Element _ _ childNodes => flat_map texts childNodes
  end.

(** A tree all of whose elements are in the allow-list. *)
Fixpoint clean (n : Dom.node) : bool :=
  match n with
  | Dom.Element tagName _ childNodes =>
      Dom.allowed tagName && forallb clean childNodes
  | _ => true
  end.

(** Every character of a string belongs to a class. *)
Fixpoint all_chars (p : ascii -> bool) (s : string) : bool :=
  match s with
  | EmptyString => true
  | String c rest => p c && all_chars p rest
  end.

(** A character occurs in a string. *)
Fixpoint contains (c : ascii) (s : string) : bool :=
  match s with
  | EmptyString => false
  | String c' rest => Ascii.eqb c' c || contains c rest
  end.

(** A segment of an address: at least one character, none of them white
    space or an at sign. *)
Definition segment (s : string) : Prop :=
  s <> "" /\ all_chars Email.not_space_or_at s = true.

(** The shape of an address: a local segment, an at sign, and a domain
    made of two segments around a dot. *)
Definition email_shaped (s : string) : Prop :=
  exists a b c,
    s = (a ++ "@" ++ b ++ "." ++ c)%string
    /\ segment a /\ segment b /\ segment c.

(** Closes the goals of a path on which a check stopped the handler:
    nothing sent, nothing armed, a message set, the rest as it was. *)
Ltac blocked := repeat split; solve [reflexivity | discriminate].

(** * Properties *)

(** ** JavaScript primitives *)

Example split_mime : JS.split "/" "image/svg+xml" = ["image"; "svg+xml"].
Proof. reflexivity. Qed.

Example trim_spaces : JS.trim "  a b " = "a b".
Proof. reflexivity. Qed.

Example number_to_string_42 : JS.Number_toString 42 = "42".
Proof. vm_compute. reflexivity. Qed.

Lemma falsy_spec s : JS.falsy s = true <-> s = "".
Proof. destruct s; simpl; split; congruence. Qed.

Lemma falsy_false s : JS.falsy s = false <-> s <> "".
Proof. destruct s; simpl; split; congruence. Qed.

Lemma or_else_fallback_nonempty a b : b <> "" -> JS.or_else a b <> "".
Proof. unfold JS.or_else. destruct a; simpl; congruence. Qed.

(** ** The settings form *)

Section SettingsFacts.

Import Settings.

Variable inst : Axios.instance.

Example invalid_type_message_text :
  invalid_type_message
  = "Invalid file type. Please upload: jpeg, jpg, png, gif, webp, svg+xml, x-icon".
Proof. reflexivity. Qed.

Example maxSize_values : maxSize logo = 2097152 /\ maxSize favicon = 1048576.
Proof. split; reflexivity. Qed.

(** Every submission issues exactly one request, and the request carries
    the record the form holds. *)
Lemma handleSubmit_one_request server st :
  exists req, sent (handleSubmit inst server st) = [req]
              /\ Axios.data req = settings st.
Proof.
  unfold handleSubmit.
  destruct (truthy_id (id (settings st)));
    match goal with |- context [server ?r] => destruct (server r) as [r'|err] end;
    try destruct (Response.success r'); simpl; eauto.
Qed.

Lemma handleSubmit_sent server st :
  sent (handleSubmit inst server st)
  = [if truthy_id (id (settings st))
     then Axios.put inst ("/basic-settings/" ++ id_text (id (settings st))) (settings st)
     else Axios.post inst "/basic-settings" (settings st)].
Proof.
  unfold handleSubmit.
  match goal with |- context [server ?r] => destruct (server r) as [r'|err] end;
    try destruct (Response.success r'); reflexivity.
Qed.

(** The record the form holds after a submission: it is replaced only
    when the service reports success, returns a payload, and the
    identifier was falsy. *)
Lemma handleSubmit_settings server st :
  settings (final (handleSubmit inst server st))
  = match sent (handleSubmit inst server st) with
    | [req] =>
        match server req with
        | Axios.Resolved r =>
            match Response.data r with
            | Some d =>
                if Response.success r && negb (truthy_id (id (settings st)))
                then d else settings st
            | None => settings st
            end
        | Axios.Rejected _ => settings st
        end
    | _ => settings st
    end.
Proof.
  rewrite handleSubmit_sent. unfold handleSubmit.
  match goal with |- context [server ?r] => destruct (server r) as [r'|err] end;
    [|reflexivity].
  destruct (Response.success r'); [|destruct (Response.data r'); reflexivity].
  destruct (Response.data r'); [|reflexivity].
  destruct (truthy_id _); reflexivity.
Qed.

End SettingsFacts.

Lemma includes_In l s : JS.includes l s = true <-> In s l.
Proof.
  unfold JS.includes. rewrite existsb_exists. split.
  - intros (x & Hx & Heq). apply String.eqb_eq in Heq. now subst.
  - intros Hin. exists s. split; [assumption | apply String.eqb_refl].
Qed.

Lemma includes_not_In l s : JS.includes l s = false <-> ~ In s l.
Proof.
  rewrite <- includes_In. destruct (JS.includes l s); split; congruence.
Qed.

(** C3 (as amended).  Every submission issues exactly one request, carrying
    the record of the form.  When the record has no identifier the request
    is a POST to the collection path; when it has an identifier other than
    0 the request is a PUT to the path of that identifier. *)
Theorem handleSubmit_create_or_update inst server st :
  exists req,
    Settings.sent (Settings.handleSubmit inst server st) = [req]
    /\ Axios.data req = Settings.settings st
    /\ (Settings.id (Settings.settings st) = None ->
        Axios.req_method req = Axios.POST /\ Axios.url req = "/basic-settings")
    /\ (forall i, Settings.id (Settings.settings st) = Some i -> i <> 0 ->
        Axios.req_method req = Axios.PUT
        /\ Axios.url req = "/basic-settings/" ++ JS.Number_toString i).
Proof.
  rewrite handleSubmit_sent. eexists. split; [reflexivity|].
  destruct (Settings.id (Settings.settings st)) as [n|] eqn:Hid; simpl.
  - destruct (Z.eqb_spec n 0) as [->|Hn]; simpl.
    + split; [reflexivity|]. split; [discriminate|].
      intros k [= <-] Hk. now elim Hk.
    + split; [reflexivity|]. split; [discriminate|].
      intros k [= <-] _. split; reflexivity.
  - split; [reflexivity|]. split; [intros _; split; reflexivity|].
    intros k [=].
Qed.

Lemma handleSubmit_create_or_update_witness :
  (exists req,
     Settings.sent (Settings.handleSubmit Sample.client Sample.accepting
                      (Sample.settings_form (Some 7))) = [req]
     /\ Axios.req_method req = Axios.PUT
     /\ Axios.url req = "/basic-settings/7")
  /\ (exists req,
     Settings.sent (Settings.handleSubmit Sample.client Sample.accepting
                      (Sample.settings_form None)) = [req]
     /\ Axios.req_method req = Axios.POST
     /\ Axios.url req = "/basic-settings").
Proof.
  split.
  - destruct (handleSubmit_create_or_update Sample.client Sample.accepting
                (Sample.settings_form (Some 7))) as (req & Hs & _ & _ & Hput).
    exists req. split; [exact Hs|]. apply (Hput 7); [reflexivity | lia].
  - destruct (handleSubmit_create_or_update Sample.client Sample.accepting
                (Sample.settings_form None)) as (req & Hs & _ & Hpost & _).
    exists req. split; [exact Hs|]. apply Hpost. reflexivity.
Defined.

(** C3, counterexample.  A record whose identifier is 0 has an identifier,
    yet its submission is a POST to the collection path and not a PUT to
    [/basic-settings/0]. *)
Lemma handleSubmit_identifier_zero_is_not_updated :
  Settings.id (Settings.settings (Sample.settings_form (Some 0))) = Some 0
  /\ map (fun req => (Axios.req_method req, Axios.url req))
       (Settings.sent (Settings.handleSubmit Sample.client Sample.accepting
                         (Sample.settings_form (Some 0))))
     = [(Axios.POST, "/basic-settings")].
Proof. split; reflexivity. Qed.

(** C9.  The choice between create and update tests the identifier for
    truthiness: a record whose identifier is present and equal to 0 is
    submitted by a POST to the collection path. *)
Theorem handleSubmit_zero_identifier_creates inst server st :
  Settings.id (Settings.settings st) = Some 0 ->
  Settings.sent (Settings.handleSubmit inst server st)
  = [Axios.post inst "/basic-settings" (Settings.settings st)]
  /\ Axios.req_method (Axios.post inst "/basic-settings" (Settings.settings st))
     = Axios.POST
  /\ Axios.url (Axios.post inst "/basic-settings" (Settings.settings st))
     = "/basic-settings".
Proof.
  intros Hid. rewrite handleSubmit_sent, Hid. simpl. auto.
Qed.

Lemma handleSubmit_zero_identifier_creates_witness :
  Settings.sent (Settings.handleSubmit Sample.client Sample.refusing
                   (Sample.settings_form (Some 0)))
  = [Axios.post Sample.client "/basic-settings" (Sample.record (Some 0))].
Proof.
  apply (handleSubmit_zero_identifier_creates Sample.client Sample.refusing
           (Sample.settings_form (Some 0))).
  reflexivity.
Defined.

(** C7.  When a submission fails, because the request is rejected or
    because the reply does not report success, the form holds the same
    record after the handler as before it. *)
Theorem handleSubmit_failure_keeps_record inst server st req :
  Settings.sent (Settings.handleSubmit inst server st) = [req] ->
  submission_failed (server req) ->
  Settings.settings (Settings.final (Settings.handleSubmit inst server st))
  = Settings.settings st.
Proof.
  intros Hsent Hfail. rewrite handleSubmit_settings, Hsent.
  destruct (server req) as [r|err]; [|reflexivity].
  simpl in Hfail. rewrite Hfail. destruct (Response.data r); reflexivity.
Qed.

Lemma handleSubmit_failure_keeps_record_witness :
  Settings.settings
    (Settings.final (Settings.handleSubmit Sample.client Sample.refusing
                       (Sample.settings_form None)))
  = Sample.record None.
Proof.
  apply (handleSubmit_failure_keeps_record Sample.client Sample.refusing
           (Sample.settings_form None)
           (Axios.post Sample.client "/basic-settings" (Sample.record None))).
  - reflexivity.
  - simpl. exact I.
Defined.

Lemma too_large_message_nonempty ty : Settings.too_large_message ty <> "".
Proof. destruct ty; discriminate. Qed.

(** C4.  A file whose MIME type is outside the allow-list, or whose size
    exceeds the ceiling of its field (2 MiB for the logo, 1 MiB for the
    favicon), is rejected: the handler sets an error message, issues no
    request, arms no timer and leaves the record alone. *)
Theorem handleFileUpload_rejects inst server file ty st :
  ~ In (Settings.type file)
      ["image/jpeg"; "image/jpg"; "image/png"; "image/gif"; "image/webp";
       "image/svg+xml"; "image/x-icon"]
  \/ Settings.size file
     > match ty with Settings.logo => 2097152 | Settings.favicon => 1048576 end ->
  let r := Settings.handleFileUpload inst server file ty st in
  Settings.sent r = []
  /\ Settings.timers r = []
  /\ Settings.error (Settings.final r) <> ""
  /\ Settings.settings (Settings.final r) = Settings.settings st.
Proof.
  intros Hbad r. subst r. unfold Settings.handleFileUpload.
  destruct (JS.includes Settings.validTypes (Settings.type file)) eqn:Hty; simpl.
  - destruct Hbad as [Hbad|Hbad].
    + apply includes_In in Hty. contradiction.
    + assert (Hbig : (Settings.size file >? Settings.maxSize ty) = true).
      { apply Z.gtb_lt. destruct ty; simpl; lia. }
      rewrite Hbig. simpl.
      repeat split; auto using too_large_message_nonempty.
  - repeat split; auto.
Qed.

Lemma handleFileUpload_rejects_witness :
  Settings.sent (Settings.handleFileUpload Sample.client Sample.storing
                   Sample.pdf_file Settings.logo (Sample.settings_form None)) = []
  /\ Settings.sent (Settings.handleFileUpload Sample.client Sample.storing
                   Sample.big_png Settings.logo (Sample.settings_form None)) = [].
Proof.
  split.
  - apply (handleFileUpload_rejects Sample.client Sample.storing
             Sample.pdf_file Settings.logo (Sample.settings_form None)).
    left. simpl. intros H. repeat (destruct H as [H|H]; [discriminate H|]).
    exact H.
  - apply (handleFileUpload_rejects Sample.client Sample.storing
             Sample.big_png Settings.logo (Sample.settings_form None)).
    right. simpl. lia.
Defined.

(** A file inside both limits is sent, to the path of its field. *)
Example handleFileUpload_sends_small_png :
  map (fun req => (Axios.req_method req, Axios.url req))
    (Settings.sent
       (Settings.handleFileUpload Sample.client Sample.storing
          {| Settings.file_name := "logo.png"; Settings.type := "image/png";
             Settings.size := 2 * 1024 * 1024 |}
          Settings.logo (Sample.settings_form None)))
  = [(Axios.POST, "/basic-settings/logo")].
Proof. reflexivity. Qed.

(** ** Regular expressions: the matcher decides the denotation *)

Section RegExpFacts.

Import RegExp.

Lemma append_empty u v : (u ++ v)%string = "" -> u = "" /\ v = "".
Proof. destruct u; simpl; [auto | discriminate]. Qed.

Lemma matches_void_inv w : ~ matches Void w.
Proof. intros H. inversion H. Qed.

Lemma matches_eps_inv w : matches Eps w -> w = "".
Proof. intros H. now inversion H. Qed.

Lemma matches_class_inv p w :
  matches (Class p) w -> exists c, w = String c "" /\ p c = true.
Proof. intros H. inversion H; subst. eauto. Qed.

Lemma matches_seq_inv r s w :
  matches (Seq r s) w ->
  exists u v, w = (u ++ v)%string /\ matches r u /\ matches s v.
Proof. intros H. inversion H; subst. eauto. Qed.

Lemma matches_alt_inv r s w : matches (Alt r s) w -> matches r w \/ matches s w.
Proof. intros H. inversion H; subst; auto. Qed.

Lemma nullable_matches r : nullable r = true <-> matches r "".
Proof.
  induction r as [| |p|r IHr s IHs|r IHr s IHs|r IHr]; simpl.
  - split; [discriminate | intros H; now apply matches_void_inv in H].
  - split; [constructor | reflexivity].
  - split; [discriminate|].
    intros H. apply matches_class_inv in H as (c & Hc & _). discriminate.
  - rewrite andb_true_iff, IHr, IHs. split.
    + intros [Hr Hs]. change "" with ("" ++ "")%string. now constructor.
    + intros H. apply matches_seq_inv in H as (u & v & Heq & Hu & Hv).
      symmetry in Heq. apply append_empty in Heq as [-> ->]. auto.
  - rewrite orb_true_iff, IHr, IHs. split.
    + intros [H|H]; [now apply m_alt_l | now apply m_alt_r].
    + apply matches_alt_inv.
  - split; [constructor | reflexivity].
Qed.

(** A non-empty match of [r*] starts with a non-empty match of [r]. *)
Lemma matches_star_cons r w :
  matches (Star r) w ->
  forall c s, w = String c s ->
  exists u v, s = (u ++ v)%string /\ matches r (String c u) /\ matches (Star r) v.
Proof.
  intros H. remember (Star r) as sr eqn:Hsr.
  induction H as [| | | | | r0 | r0 u v Hu _ Hv IHv]; try discriminate.
  assert (r0 = r) as -> by congruence.
  intros c s Hw. destruct u as [|c' u'].
  - change ("" ++ v)%string with v in Hw. apply (IHv eq_refl c s Hw).
  - change (String c' u' ++ v)%string with (String c' (u' ++ v)) in Hw.
    injection Hw as Hc Hs. subst c' s.
    exists u', v. auto.
Qed.

Lemma seq_cons c u v r s :
  matches r (String c u) -> matches s v -> matches (Seq r s) (String c (u ++ v)).
Proof.
  intros Hu Hv. change (String c (u ++ v)) with (String c u ++ v)%string.
  now constructor.
Qed.

Lemma deriv_matches c r : forall s, matches (deriv c r) s <-> matches r (String c s).
Proof.
  induction r as [| |p|r IHr t IHt|r IHr t IHt|r IHr]; intros s; simpl.
  - split; intros H; now apply matches_void_inv in H.
  - split; intros H; [now apply matches_void_inv in H|].
    apply matches_eps_inv in H. discriminate.
  - destruct (p c) eqn:Hp; split; intros H.
    + apply matches_eps_inv in H as ->. now constructor.
    + apply matches_class_inv in H as (c' & [= <- ->] & _). constructor.
    + now apply matches_void_inv in H.
    + apply matches_class_inv in H as (c' & [= <- ->] & Hc). congruence.
  - assert (Hseq : matches (Seq (deriv c r) t) s ->
                   matches (Seq r t) (String c s)).
    { intros H. apply matches_seq_inv in H as (u & v & -> & Hu & Hv).
      apply seq_cons; [now apply IHr | assumption]. }
    assert (Hback : matches (Seq r t) (String c s) ->
                    matches (Seq (deriv c r) t) s
                    \/ (nullable r = true /\ matches (deriv c t) s)).
    { intros H. apply matches_seq_inv in H as (u & v & Heq & Hu & Hv).
      destruct u as [|c' u'].
      - change ("" ++ v)%string with v in Heq. subst v. right. split.
        + now apply nullable_matches.
        + now apply IHt.
      - change (String c' u' ++ v)%string with (String c' (u' ++ v)) in Heq.
        injection Heq as Hc Hs. subst c' s. left.
        constructor; [now apply IHr | assumption]. }
    destruct (nullable r) eqn:Hn.
    + split.
      * intros H. apply matches_alt_inv in H as [H|H]; [now apply Hseq|].
        change (String c s) with ("" ++ String c s)%string.
        constructor; [now apply nullable_matches | now apply IHt].
      * intros H. destruct (Hback H) as [H'|[_ H']];
          [now apply m_alt_l | now apply m_alt_r].
    + split; [exact Hseq|].
      intros H. destruct (Hback H) as [H'|[H' _]]; [exact H' | discriminate].
  - split; intros H; apply matches_alt_inv in H as [H|H];
      solve [apply m_alt_l; now apply IHr | apply m_alt_r; now apply IHt].
  - split.
    + intros H. apply matches_seq_inv in H as (u & v & -> & Hu & Hv).
      change (String c (u ++ v)) with (String c u ++ v)%string.
      apply m_star_cons; [now apply IHr | assumption].
    + intros H.
      destruct (matches_star_cons r _ H c s eq_refl) as (u & v & -> & Hu & Hv).
      constructor; [now apply IHr | assumption].
Qed.

Lemma test_matches r s : test r s = true <-> matches r s.
Proof.
  revert r. induction s as [|c s IH]; intros r; simpl.
  - apply nullable_matches.
  - rewrite IH. apply deriv_matches.
Qed.

End RegExpFacts.

(** ** The e-mail pattern *)

Section EmailFacts.

Import RegExp.

Lemma star_class p s : matches (Star (Class p)) s <-> all_chars p s = true.
Proof.
  split.
  - intros H. remember (Star (Class p)) as sr eqn:Hsr.
    induction H as [| | | | | r0 | r0 u v Hu _ Hv IHv]; try discriminate.
    + reflexivity.
    + assert (r0 = Class p) as -> by congruence.
      apply matches_class_inv in Hu as (c & -> & Hc).
      change (String c "" ++ v)%string with (String c v). simpl.
      rewrite Hc. now apply IHv.
  - induction s as [|c s IH]; simpl; intros H.
    + constructor.
    + apply andb_true_iff in H as [Hc Hs].
      change (String c s) with (String c "" ++ s)%string.
      apply m_star_cons; [now constructor | now apply IH].
Qed.

Lemma plus_class p s :
  matches (Plus (Class p)) s <-> s <> "" /\ all_chars p s = true.
Proof.
  unfold Plus. split.
  - intros H. apply matches_seq_inv in H as (u & v & -> & Hu & Hv).
    apply matches_class_inv in Hu as (c & -> & Hc).
    apply star_class in Hv.
    change (String c "" ++ v)%string with (String c v). simpl.
    rewrite Hc, Hv. split; [discriminate | reflexivity].
  - intros [Hne H]. destruct s as [|c s]; [congruence|].
    simpl in H. apply andb_true_iff in H as [Hc Hs].
    change (String c s) with (String c "" ++ s)%string.
    constructor; [now constructor | now apply star_class].
Qed.

Lemma class_char c w : matches (Class (Ascii.eqb c)) w <-> w = String c "".
Proof.
  split.
  - intros H. apply matches_class_inv in H as (c' & -> & Hc).
    apply Ascii.eqb_eq in Hc. now subst.
  - intros ->. constructor. apply Ascii.eqb_refl.
Qed.

(** The pattern accepts exactly the strings of the shape
    [segment@segment.segment]. *)
Lemma emailRegex_shape s :
  test Email.emailRegex s = true <-> email_shaped s.
Proof.
  rewrite test_matches. unfold Email.emailRegex, email_shaped, segment. split.
  - intros H.
    apply matches_seq_inv in H as (a & w1 & -> & Ha & H).
    apply matches_seq_inv in H as (at_ & w2 & -> & Hat & H).
    apply matches_seq_inv in H as (b & w3 & -> & Hb & H).
    apply matches_seq_inv in H as (dot & c & -> & Hdot & Hc).
    apply class_char in Hat as ->. apply class_char in Hdot as ->.
    apply plus_class in Ha, Hb, Hc.
    exists a, b, c. auto.
  - intros (a & b & c & -> & Ha & Hb & Hc).
    apply plus_class in Ha, Hb, Hc.
    repeat (constructor; try assumption); now apply class_char.
Qed.

Lemma all_chars_app p u v :
  all_chars p (u ++ v) = all_chars p u && all_chars p v.
Proof.
  induction u as [|c u IH].
  - reflexivity.
  - change (String c u ++ v)%string with (String c (u ++ v)). simpl.
    rewrite IH. apply andb_assoc.
Qed.

Lemma contains_app c u v : contains c (u ++ v) = contains c u || contains c v.
Proof.
  induction u as [|c' u IH].
  - reflexivity.
  - change (String c' u ++ v)%string with (String c' (u ++ v)). simpl.
    rewrite IH. apply orb_assoc.
Qed.

(** A string without an at sign does not pass the test. *)
Lemma emailRegex_needs_at s :
  contains "@" s = false -> test Email.emailRegex s = false.
Proof.
  intros Hno. destruct (test Email.emailRegex s) eqn:Ht; [|reflexivity].
  apply emailRegex_shape in Ht as (a & b & c & -> & _).
  rewrite contains_app in Hno. apply orb_false_iff in Hno as [_ Hno].
  discriminate Hno.
Qed.

(** A string that passes the test has a domain with a dot in it after
    the at sign. *)
Lemma emailRegex_needs_domain s :
  test Email.emailRegex s = true ->
  exists a d, s = (a ++ "@" ++ d)%string /\ a <> "" /\ contains "." d = true.
Proof.
  intros Ht. apply emailRegex_shape in Ht as (a & b & c & -> & [Ha _] & _).
  exists a, (b ++ "." ++ c)%string. split; [reflexivity|]. split; [exact Ha|].
  rewrite contains_app. apply orb_true_iff. right. reflexivity.
Qed.

(** A string with white space in it does not pass the test. *)
Lemma emailRegex_no_space s :
  test Email.emailRegex s = true -> all_chars (fun c => negb (JS.is_space c)) s = true.
Proof.
  intros Ht. apply emailRegex_shape in Ht as (a & b & c & -> & Ha & Hb & Hc).
  assert (Hseg : forall x, segment x ->
                 all_chars (fun c => negb (JS.is_space c)) x = true).
  { intros x [_ Hx]. clear -Hx. induction x as [|k x IH]; [reflexivity|].
    simpl in *. apply andb_true_iff in Hx as [Hk Hx]. rewrite (IH Hx).
    unfold Email.not_space_or_at in Hk.
    destruct (JS.is_space k); [discriminate | reflexivity]. }
  rewrite !all_chars_app, (Hseg a Ha), (Hseg b Hb), (Hseg c Hc). reflexivity.
Qed.

Example email_samples :
  test Email.emailRegex "reader@example.com" = true
  /\ test Email.emailRegex "not-an-email" = false
  /\ test Email.emailRegex "reader@example" = false
  /\ test Email.emailRegex "reader@.com" = false
  /\ test Email.emailRegex "rea der@example.com" = false
  /\ test Email.emailRegex "a@b@c.d" = false.
Proof. repeat split; reflexivity. Qed.

End EmailFacts.

(** ** The sign-up and sign-in forms *)

Lemma registration_invalid_dec f :
  registration_invalid f
  \/ (SignUp.name f <> "" /\ SignUp.email f <> "" /\ SignUp.password f <> ""
      /\ RegExp.test Email.emailRegex (SignUp.email f) = true
      /\ (6 <= String.length (SignUp.password f))%nat
      /\ SignUp.password f = SignUp.confirmPassword f).
Proof.
  unfold registration_invalid.
  destruct (string_dec (SignUp.name f) ""); [tauto|].
  destruct (string_dec (SignUp.email f) ""); [tauto|].
  destruct (string_dec (SignUp.password f) ""); [tauto|].
  destruct (RegExp.test Email.emailRegex (SignUp.email f)); [|tauto].
  destruct (le_lt_dec 6 (String.length (SignUp.password f))); [|tauto].
  destruct (string_dec (SignUp.password f) (SignUp.confirmPassword f)); tauto.
Qed.

(** The outcome of the checks of [handleRegistration], path by path. *)
Lemma handleRegistration_checks inst server st :
  (registration_invalid (SignUp.formData st)
   /\ SignUp.sent (SignUp.handleRegistration inst server st) = []
   /\ SignUp.timers (SignUp.handleRegistration inst server st) = []
   /\ SignUp.error (SignUp.final (SignUp.handleRegistration inst server st)) <> ""
   /\ SignUp.formData (SignUp.final (SignUp.handleRegistration inst server st))
      = SignUp.formData st)
  \/ (~ registration_invalid (SignUp.formData st)
      /\ SignUp.sent (SignUp.handleRegistration inst server st)
         = [Axios.post inst "/users/registration"
              {| SignUp.body_name := SignUp.name (SignUp.formData st);
                 SignUp.body_email := SignUp.email (SignUp.formData st);
                 SignUp.body_password := SignUp.password (SignUp.formData st);
                 SignUp.body_role := SignUp.role (SignUp.formData st) |}]).
Proof.
  unfold SignUp.handleRegistration, registration_invalid.
  set (f := SignUp.formData st).
  destruct (JS.falsy (SignUp.name f)) eqn:Hn; simpl.
  { left. apply falsy_spec in Hn. split; [tauto|]. blocked. }
  destruct (JS.falsy (SignUp.email f)) eqn:He; simpl.
  { left. apply falsy_spec in He. split; [tauto|]. blocked. }
  destruct (JS.falsy (SignUp.password f)) eqn:Hp; simpl.
  { left. apply falsy_spec in Hp. split; [tauto|]. blocked. }
  apply falsy_false in Hn, He, Hp.
  destruct (RegExp.test Email.emailRegex (SignUp.email f)) eqn:Ht; simpl.
  2:{ left. split; [tauto|]. blocked. }
  destruct (Z.ltb_spec (Z.of_nat (String.length (SignUp.password f))) 6) as [Hl|Hl].
  { left. split; [do 4 right; left; lia|]. blocked. }
  destruct (String.eqb_spec (SignUp.password f) (SignUp.confirmPassword f)) as [Hc|Hc];
    simpl.
  2:{ left. split; [tauto|]. blocked. }
  right. split.
  - intros [H|[H|[H|[H|[H|H]]]]]; try contradiction; try discriminate; lia.
  - destruct (server _) as [r|err]; [destruct (Response.success r)|]; reflexivity.
Qed.

Lemma handleLogin_checks stringify inst storage server st :
  (login_invalid (SignIn.formData st)
   /\ SignIn.sent (SignIn.handleLogin stringify inst storage server st) = []
   /\ SignIn.timers (SignIn.handleLogin stringify inst storage server st) = []
   /\ SignIn.error (SignIn.final (SignIn.handleLogin stringify inst storage server st)) <> ""
   /\ SignIn.localStorage (SignIn.handleLogin stringify inst storage server st) = storage
   /\ SignIn.axiosInstance (SignIn.handleLogin stringify inst storage server st) = inst)
  \/ (~ login_invalid (SignIn.formData st)
      /\ SignIn.sent (SignIn.handleLogin stringify inst storage server st)
         = [Axios.post inst "/users/login"
              {| SignIn.body_email := SignIn.email (SignIn.formData st);
                 SignIn.body_password := SignIn.password (SignIn.formData st) |}]).
Proof.
  unfold SignIn.handleLogin, login_invalid.
  set (f := SignIn.formData st).
  destruct (JS.falsy (SignIn.email f)) eqn:He; simpl.
  { left. apply falsy_spec in He. split; [tauto|]. blocked. }
  destruct (JS.falsy (SignIn.password f)) eqn:Hp; simpl.
  { left. apply falsy_spec in Hp. split; [tauto|]. blocked. }
  apply falsy_false in He, Hp.
  destruct (RegExp.test Email.emailRegex (SignIn.email f)) eqn:Ht; simpl.
  2:{ left. split; [tauto|]. blocked. }
  right. split.
  - intros [H|[H|H]]; try contradiction; discriminate.
  - destruct (server _) as [r|err]; [destruct (SignIn.reply_success r)|]; reflexivity.
Qed.

(** C5.  A sign-up form state that fails a client-side check (a required
    field empty, the address failing the e-mail test, a password of fewer
    than 6 characters, password and confirmation differing) makes the
    submit handler set an error message and return without a request; so
    does a sign-in form state with an empty field or a malformed address.
    Either handler issues a request only when every check has passed. *)
Theorem submit_blocked_before_network
    inst storage stringify reg_server login_server
    (su : SignUp.state) (si : SignIn.state) :
  let reg := SignUp.handleRegistration inst reg_server su in
  let login := SignIn.handleLogin stringify inst storage login_server si in
  (registration_invalid (SignUp.formData su) ->
     SignUp.sent reg = [] /\ SignUp.error (SignUp.final reg) <> "")
  /\ (SignUp.sent reg <> [] -> ~ registration_invalid (SignUp.formData su))
  /\ (login_invalid (SignIn.formData si) ->
     SignIn.sent login = [] /\ SignIn.error (SignIn.final login) <> "")
  /\ (SignIn.sent login <> [] -> ~ login_invalid (SignIn.formData si)).
Proof.
  intros reg login. subst reg login.
  destruct (handleRegistration_checks inst reg_server su)
    as [(Hbad & Hsent & _ & Herr & _)|(Hok & Hsent)];
  destruct (handleLogin_checks stringify inst storage login_server si)
    as [(Hbad' & Hsent' & _ & Herr' & _)|(Hok' & Hsent')];
  repeat split; intros; try tauto; try congruence.
Qed.

Lemma submit_blocked_before_network_witness :
  SignUp.sent (SignUp.handleRegistration Sample.client Sample.registering
                 Sample.malformed_sign_up) = []
  /\ SignIn.sent (SignIn.handleLogin Sample.stringify Sample.client ∅
                    Sample.authenticating
                    (Sample.sign_in_form "not-an-email" "secret1")) = [].
Proof.
  pose proof (submit_blocked_before_network Sample.client ∅ Sample.stringify
                Sample.registering Sample.authenticating
                Sample.malformed_sign_up
                (Sample.sign_in_form "not-an-email" "secret1"))
    as (Hreg & _ & Hlogin & _).
  split.
  - apply Hreg. do 3 right. left. reflexivity.
  - apply Hlogin. do 2 right. reflexivity.
Defined.

(** The scenario of the specification: the address "not-an-email" with any
    password leaves a message on the sign-in form and sends nothing. *)
Example login_not_an_email password server :
  let r := SignIn.handleLogin Sample.stringify Sample.client ∅ server
             (Sample.sign_in_form "not-an-email" password) in
  SignIn.sent r = [] /\ SignIn.error (SignIn.final r) <> "".
Proof.
  destruct password; simpl; split; solve [reflexivity | discriminate].
Qed.

(** A form that passes every check is submitted once. *)
Example filled_sign_up_is_sent :
  map (fun req => (Axios.req_method req, Axios.url req, Axios.data req))
    (SignUp.sent (SignUp.handleRegistration Sample.client Sample.registering
                    Sample.filled_sign_up))
  = [(Axios.POST, "/users/registration",
      {| SignUp.body_name := "Ann"; SignUp.body_email := "ann@example.com";
         SignUp.body_password := "secret1"; SignUp.body_role := "user" |})].
Proof. reflexivity. Qed.

(** The role survives everything the form lets the user do. *)
Lemma assign_input_keeps_role key value f :
  In key SignUp.input_names ->
  SignUp.role (SignUp.assign key value f) = SignUp.role f.
Proof.
  intros Hin. simpl in Hin.
  destruct Hin as [<-|[<-|[<-|[<-|[]]]]]; reflexivity.
Qed.

Lemma handleRegistration_role inst server st :
  SignUp.role (SignUp.formData st) = "user" ->
  SignUp.role (SignUp.formData (SignUp.final (SignUp.handleRegistration inst server st)))
  = "user".
Proof.
  intros Hrole. unfold SignUp.handleRegistration.
  repeat match goal with
         | |- context [if ?b then _ else _] => destruct b; simpl; try assumption
         end.
  destruct (server _) as [r|err]; [destruct (Response.success r)|];
    simpl; auto.
Qed.

Lemma step_keeps_role inst st st' :
  SignUp.step inst st st' ->
  SignUp.role (SignUp.formData st) = "user" ->
  SignUp.role (SignUp.formData st') = "user".
Proof.
  intros Hstep Hrole. destruct Hstep; simpl; auto.
  - now rewrite assign_input_keeps_role.
  - now apply handleRegistration_role.
Qed.

Lemma reachable_role inst st :
  SignUp.reachable inst st -> SignUp.role (SignUp.formData st) = "user".
Proof.
  induction 1 as [|st st' _ IH Hstep]; [reflexivity|].
  exact (step_keeps_role inst st st' Hstep IH).
Qed.

(** C10.  In every state the sign-up form can reach, whatever the user
    typed or toggled and whatever earlier submissions returned, a
    registration request carries the role "user". *)
Theorem registration_role_is_user inst server st req :
  SignUp.reachable inst st ->
  In req (SignUp.sent (SignUp.handleRegistration inst server st)) ->
  SignUp.body_role (Axios.data req) = "user".
Proof.
  intros Hreach Hin.
  destruct (handleRegistration_checks inst server st)
    as [(_ & Hsent & _)|(_ & Hsent)]; rewrite Hsent in Hin.
  - destruct Hin.
  - destruct Hin as [<-|[]]. simpl. exact (reachable_role inst st Hreach).
Qed.

Lemma filled_sign_up_reachable : SignUp.reachable Sample.client Sample.filled_sign_up.
Proof.
  unfold Sample.filled_sign_up.
  repeat (eapply SignUp.reach_step;
          [| apply SignUp.step_change; simpl; tauto]).
  apply SignUp.reach_initial.
Defined.

Lemma registration_role_is_user_witness :
  SignUp.body_role
    (Axios.data (Axios.post Sample.client "/users/registration"
       {| SignUp.body_name := "Ann"; SignUp.body_email := "ann@example.com";
          SignUp.body_password := "secret1"; SignUp.body_role := "user" |}))
  = "user".
Proof.
  apply (registration_role_is_user Sample.client Sample.registering
           Sample.filled_sign_up).
  - exact filled_sign_up_reachable.
  - left. reflexivity.
Defined.

(** The guarantee rests on the inputs the form renders: [handleChange]
    itself would overwrite the role if an input were named "role". *)
Example handleChange_role_key :
  SignUp.role (SignUp.formData (SignUp.handleChange "role" "admin" SignUp.initial))
  = "admin".
Proof. reflexivity. Qed.

(** What a successful login leaves in storage and in the client. *)
Lemma login_stores_session
    stringify inst storage server st req reply tok u :
  let r := SignIn.handleLogin stringify inst storage server st in
  SignIn.sent r = [req] ->
  server req = Axios.Resolved reply ->
  SignIn.reply_success reply = true ->
  SignIn.token reply = Some tok ->
  SignIn.user reply = Some u ->
  SignIn.localStorage r !! "user" = Some (stringify u)
  /\ SignIn.localStorage r !! "token" = Some tok
  /\ Axios.common (SignIn.axiosInstance r) !! "Authorization"
     = Some ("Bearer " ++ tok).
Proof.
  intros r Hsent Hserver Hok Htok Huser. subst r.
  destruct (handleLogin_checks stringify inst storage server st)
    as [(_ & Hnone & _)|(_ & Hone)].
  { rewrite Hnone in Hsent. discriminate. }
  rewrite Hone in Hsent. injection Hsent as Hreq.
  unfold SignIn.handleLogin in *.
  destruct (JS.falsy (SignIn.email (SignIn.formData st))
            || JS.falsy (SignIn.password (SignIn.formData st))); [discriminate|].
  destruct (negb (RegExp.test Email.emailRegex (SignIn.email (SignIn.formData st))));
    [discriminate|].
  rewrite Hreq, Hserver, Hok, Htok, Huser. simpl.
  split; [apply lookup_insert_eq|].
  split; [rewrite lookup_insert_ne by discriminate|]; apply lookup_insert_eq.
Qed.

(** C2.  When the reply to the login request has its success flag set and
    carries a token and a user record, then once the handler has completed
    local storage holds that user record (as its JSON text) under "user"
    and that token under "token", and every request made through the
    shared client from then on carries the header
    [Authorization: Bearer <token>], unless the call sets that header
    itself. *)
Theorem handleLogin_persists_session
    stringify inst storage server st req reply tok u :
  let r := SignIn.handleLogin stringify inst storage server st in
  SignIn.sent r = [req] ->
  server req = Axios.Resolved reply ->
  SignIn.reply_success reply = true ->
  SignIn.token reply = Some tok ->
  SignIn.user reply = Some u ->
  SignIn.localStorage r !! "user" = Some (stringify u)
  /\ SignIn.localStorage r !! "token" = Some tok
  /\ forall B m path (body : B) (config : gmap string string),
       config !! "Authorization" = None ->
       Axios.headers (Axios.send (SignIn.axiosInstance r) m path body config)
         !! "Authorization"
       = Some ("Bearer " ++ tok).
Proof.
  intros r Hsent Hserver Hok Htok Huser.
  destruct (login_stores_session stringify inst storage server st req reply tok u
              Hsent Hserver Hok Htok Huser) as (Hu & Ht & Hheader).
  split; [exact Hu|]. split; [exact Ht|].
  intros B m path body config Hconfig. simpl.
  rewrite lookup_union_r by exact Hconfig. exact Hheader.
Qed.

Lemma handleLogin_persists_session_witness :
  let r := SignIn.handleLogin Sample.stringify Sample.client ∅
             Sample.authenticating
             (Sample.sign_in_form "ann@example.com" "secret1") in
  SignIn.localStorage r !! "user" = Some (Sample.stringify Sample.ann)
  /\ SignIn.localStorage r !! "token" = Some "tok-123"
  /\ Axios.headers (Axios.post (SignIn.axiosInstance r) "/basic-settings"
                      (Sample.record None)) !! "Authorization"
     = Some "Bearer tok-123".
Proof.
  intros r.
  destruct (handleLogin_persists_session Sample.stringify Sample.client ∅
              Sample.authenticating
              (Sample.sign_in_form "ann@example.com" "secret1")
              (Axios.post Sample.client "/users/login"
                 {| SignIn.body_email := "ann@example.com";
                    SignIn.body_password := "secret1" |})
              {| SignIn.reply_success := true; SignIn.reply_message := "welcome";
                 SignIn.token := Some "tok-123"; SignIn.user := Some Sample.ann |}
              "tok-123" Sample.ann)
    as (Huser & Htoken & Hheader); try reflexivity.
  split; [exact Huser|]. split; [exact Htoken|].
  apply Hheader. apply lookup_empty.
Defined.

(** The header, mounted after such a login, reads back exactly that user
    record, provided [JSON.parse] undoes [JSON.stringify]. *)
Lemma header_reads_session
    stringify parse inst storage server st req reply tok u :
  let r := SignIn.handleLogin stringify inst storage server st in
  (forall v, parse (stringify v) = Some v) ->
  SignIn.sent r = [req] ->
  server req = Axios.Resolved reply ->
  SignIn.reply_success reply = true ->
  SignIn.token reply = Some tok ->
  SignIn.user reply = Some u ->
  tok <> "" -> stringify u <> "" ->
  Header.check_login parse (SignIn.localStorage r)
  = {| Header.isLoggedIn := true; Header.user := Some u |}.
Proof.
  intros r Hparse Hsent Hserver Hok Htok Huser Htok' Hu'. subst r.
  destruct (login_stores_session stringify inst storage server st req reply tok u
              Hsent Hserver Hok Htok Huser) as (Hu & Ht & _).
  cbv zeta in Hu, Ht. unfold Header.check_login. rewrite Ht, Hu.
  apply falsy_false in Htok', Hu'. rewrite Htok', Hu', Hparse. reflexivity.
Qed.

(** Logging out clears both entries, and a header mounted afterwards shows
    the logged-out state. *)
Lemma logout_clears_session parse storage :
  let storage' := fst (Header.handleLogout storage) in
  storage' !! "token" = None /\ storage' !! "user" = None
  /\ Header.check_login parse storage' = Header.logged_out.
Proof.
  simpl. assert (Ht : delete "user" (delete "token" storage) !! "token" = None).
  { rewrite lookup_delete_ne by discriminate. apply lookup_delete_eq. }
  split; [exact Ht|]. split; [apply lookup_delete_eq|].
  unfold Header.check_login. now rewrite Ht.
Qed.

(** X18.  A reply that does not report success leaves storage and client as
    they were. *)
Lemma handleLogin_failure_keeps_session stringify inst storage server st req :
  let r := SignIn.handleLogin stringify inst storage server st in
  SignIn.sent r = [req] ->
  match server req with
  | Axios.Resolved reply => SignIn.reply_success reply = false
  | Axios.Rejected _ => True
  end ->
  SignIn.localStorage r = storage /\ SignIn.axiosInstance r = inst.
Proof.
  intros r Hsent Hfail. subst r.
  destruct (handleLogin_checks stringify inst storage server st)
    as [(_ & Hnone & _)|(_ & Hone)].
  { rewrite Hnone in Hsent. discriminate. }
  rewrite Hone in Hsent. injection Hsent as Hreq.
  unfold SignIn.handleLogin in *.
  destruct (JS.falsy (SignIn.email (SignIn.formData st))
            || JS.falsy (SignIn.password (SignIn.formData st))); [discriminate|].
  destruct (negb (RegExp.test Email.emailRegex (SignIn.email (SignIn.formData st))));
    [discriminate|].
  rewrite Hreq. destruct (server req) as [reply|err]; [|split; reflexivity].
  rewrite Hfail. split; reflexivity.
Qed.

(** ** The editor: paste sanitisation *)

Section PasteFacts.

Import Dom.








End PasteFacts.

(** ** The loops of the paste handler compute [sanitize] *)

Section LoopFacts.

Import Live.

Lemma flat_map_Forall_ext {A B} (f g : A -> list B) l :
  Forall (fun x => f x = g x) l -> flat_map f l = flat_map g l.
Proof. induction 1 as [|x l Hx _ IH]; simpl; congruence. Qed.

Lemma flat_map_flat_map {A B C} (f : A -> list B) (g : B -> list C) l :
  flat_map g (flat_map f l) = flat_map (fun x => flat_map g (f x)) l.
Proof.
  induction l as [|x l IH]; [reflexivity|].
  simpl. now rewrite List.flat_map_app, IH.
Qed.

Lemma labels_cons n forest : labels (n :: forest) = (labels [n] ++ labels forest)%list.
Proof. unfold labels. simpl. now rewrite app_nil_r, map_app. Qed.

Lemma labels_element label tagName attributes childNodes :
  labels [Element label tagName attributes childNodes] = label :: labels childNodes.
Proof. unfold labels. simpl. now rewrite app_nil_r. Qed.

Lemma labels_elem_of l n forest :
  In n forest -> l ∈ labels [n] -> l ∈ labels forest.
Proof.
  induction forest as [|m forest IH]; intros Hin Hl; [destruct Hin|].
  rewrite labels_cons. apply elem_of_app. destruct Hin as [->|Hin]; auto.
Qed.

(** Cutting nothing leaves the tree alone. *)
Lemma cut_empty keep n : cut keep ∅ n = [n].
Proof.
  induction n as [data|data|label tagName attributes childNodes IH] using node_ind;
    try reflexivity.
  simpl. rewrite decide_False by set_solver.
  rewrite (flat_map_Forall_ext _ (fun c => [c]) _ IH).
  do 2 f_equal. clear IH. induction childNodes; simpl; congruence.
Qed.

Lemma cut_empty_forest keep forest : flat_map (cut keep ∅) forest = forest.
Proof.
  induction forest as [|n forest IH]; [reflexivity|].
  simpl. now rewrite cut_empty, IH.
Qed.

(** A label that does not occur in a tree makes no difference to it. *)
Lemma cut_fresh keep S i n :
  i ∉ labels [n] -> cut keep (S ∪ {[i]}) n = cut keep S n.
Proof.
  induction n as [data|data|label tagName attributes childNodes IH] using node_ind;
    try reflexivity.
  rewrite labels_element. intros Hfresh.
  apply not_elem_of_cons in Hfresh as [Hne Hfresh].
  assert (Hkids : flat_map (cut keep (S ∪ {[i]})) childNodes
                  = flat_map (cut keep S) childNodes).
  { apply flat_map_Forall_ext. rewrite List.Forall_forall in IH |- *.
    intros c Hc. apply (IH c Hc). intros Hin. apply Hfresh.
    now apply (labels_elem_of i c childNodes). }
  simpl. rewrite Hkids.
  destruct (decide (label ∈ S)) as [Hin|Hout].
  - rewrite decide_True by set_solver. reflexivity.
  - assert (Hout' : label ∉ S ∪ {[i]})
      by (rewrite elem_of_union, elem_of_singleton; intuition congruence).
    rewrite decide_False by exact Hout'. reflexivity.
Qed.

Lemma cut_fresh_forest keep S i forest :
  i ∉ labels forest ->
  flat_map (cut keep (S ∪ {[i]})) forest = flat_map (cut keep S) forest.
Proof.
  intros Hfresh. apply flat_map_Forall_ext, List.Forall_forall.
  intros n Hn. apply cut_fresh. intros Hin. apply Hfresh.
  now apply (labels_elem_of i n forest).
Qed.

Lemma NoDup_labels_cons n forest :
  NoDup (labels (n :: forest)) -> NoDup (labels [n]) /\ NoDup (labels forest).
Proof. rewrite labels_cons, NoDup_app. tauto. Qed.

Lemma NoDup_labels_In n forest :
  NoDup (labels forest) -> In n forest -> NoDup (labels [n]).
Proof.
  induction forest as [|m forest IH]; intros Hnd Hin; [destruct Hin|].
  apply NoDup_labels_cons in Hnd as [Hm Hrest].
  destruct Hin as [->|Hin]; auto.
Qed.

(** One round of a loop adds one label to the set that has been cut. *)
Lemma detach_cut keep S i n :
  NoDup (labels [n]) ->
  flat_map (detach keep i) (cut keep S n) = cut keep (S ∪ {[i]}) n.
Proof.
  induction n as [data|data|label tagName attributes childNodes IH] using node_ind;
    try reflexivity.
  rewrite labels_element. intros Hnd. apply NoDup_cons in Hnd as [Hlabel Hnd].
  assert (Hkids : flat_map (detach keep i) (flat_map (cut keep S) childNodes)
                  = flat_map (cut keep (S ∪ {[i]})) childNodes).
  { rewrite flat_map_flat_map. apply flat_map_Forall_ext.
    rewrite List.Forall_forall in IH |- *. intros c Hc. apply (IH c Hc).
    now apply (NoDup_labels_In c childNodes). }
  simpl. destruct (decide (label ∈ S)) as [Hin|Hout].
  - rewrite decide_True by set_solver. destruct keep; [exact Hkids | reflexivity].
  - simpl. rewrite app_nil_r. destruct (Nat.eqb_spec label i) as [->|Hne].
    + rewrite decide_True by set_solver.
      destruct keep; [|reflexivity]. symmetry. now apply cut_fresh_forest.
    + assert (Hout' : label ∉ S ∪ {[i]})
        by (rewrite elem_of_union, elem_of_singleton; intuition congruence).
      rewrite decide_False by exact Hout'. now rewrite Hkids.
Qed.

Lemma detach_cut_forest keep S i forest :
  NoDup (labels forest) ->
  flat_map (detach keep i) (flat_map (cut keep S) forest)
  = flat_map (cut keep (S ∪ {[i]})) forest.
Proof.
  intros Hnd. rewrite flat_map_flat_map. apply flat_map_Forall_ext.
  apply List.Forall_forall. intros n Hn. apply detach_cut.
  now apply (NoDup_labels_In n forest).
Qed.

(** A run of the loop over a list of elements cuts the set of their
    labels. *)
Lemma forEach_detach keep (L : list (nat * string)) : forall S forest,
  NoDup (labels forest) ->
  fold_left (fun tree el => flat_map (detach keep (fst el)) tree) L
    (flat_map (cut keep S) forest)
  = flat_map (cut keep (S ∪ list_to_set (map fst L))) forest.
Proof.
  induction L as [|el L IH]; intros S forest Hnd; simpl.
  - now rewrite (right_id_L ∅ (∪)).
  - rewrite detach_cut_forest by exact Hnd. rewrite IH by exact Hnd.
    now rewrite (assoc_L (∪)).
Qed.

Lemma fold_left_when {A B} (f : A -> B -> A) (p : B -> bool) l : forall a,
  fold_left (fun x y => if p y then f x y else x) l a
  = fold_left f (List.filter p l) a.
Proof.
  induction l as [|y l IH]; intros a; [reflexivity|].
  simpl. destruct (p y); simpl; apply IH.
Qed.

Lemma labels_determine_tags (L : list (nat * string)) l t t' :
  NoDup (map fst L) -> In (l, t) L -> In (l, t') L -> t = t'.
Proof.
  induction L as [|[l0 t0] L IH]; simpl; intros Hnd Hin Hin'; [destruct Hin|].
  apply NoDup_cons in Hnd as [Hfresh Hnd].
  assert (Hfst : forall x, In (l0, x) L -> False).
  { intros x Hx. apply Hfresh. apply list_elem_of_In.
    change l0 with (fst (l0, x)). now apply in_map. }
  destruct Hin as [Heq|Hin], Hin' as [Heq'|Hin']; try congruence.
  - injection Heq as <- <-. elim (Hfst _ Hin').
  - injection Heq' as <- <-. elim (Hfst _ Hin).
  - now apply IH.
Qed.

(** The set a loop has cut at its end holds exactly the labels of the
    elements its test selects. *)
Lemma selected_labels (p : string -> bool) (L : list (nat * string)) l t :
  NoDup (map fst L) -> In (l, t) L ->
  l ∈ (list_to_set (map fst (List.filter (fun el => p (snd el)) L)) : gset nat)
  <-> p t = true.
Proof.
  intros Hnd Hin. rewrite elem_of_list_to_set, list_elem_of_In, in_map_iff. split.
  - intros ([l' t'] & Hl & Hf). simpl in Hl. subst l'.
    apply List.filter_In in Hf as [Hin' Hp]. simpl in Hp.
    now rewrite (labels_determine_tags L l t t' Hnd Hin Hin').
  - intros Hp. exists (l, t). split; [reflexivity|].
    apply List.filter_In. auto.
Qed.

Lemma map_flat_map {A B C} (f : B -> C) (g : A -> list B) l :
  map f (flat_map g l) = flat_map (fun x => map f (g x)) l.
Proof.
  induction l as [|x l IH]; [reflexivity|]. simpl. now rewrite map_app, IH.
Qed.

Lemma flat_map_map {A B C} (f : A -> B) (g : B -> list C) l :
  flat_map g (map f l) = flat_map (fun x => g (f x)) l.
Proof. induction l as [|x l IH]; [reflexivity|]. simpl. now rewrite IH. Qed.

(** Cutting the labels of the elements that pass a test is pruning by that
    test. *)
Lemma erase_cut keep p S n :
  (forall l t, In (l, t) (querySelectorAll n) -> l ∈ S <-> p t = true) ->
  map erase (cut keep S n) = prune keep p (erase n).
Proof.
  induction n as [data|data|label tagName attributes childNodes IH] using node_ind;
    try reflexivity.
  intros Hsel.
  assert (Hkids : map erase (flat_map (cut keep S) childNodes)
                  = flat_map (prune keep p) (map erase childNodes)).
  { rewrite map_flat_map, flat_map_map. apply flat_map_Forall_ext.
    rewrite List.Forall_forall in IH |- *. intros c Hc. apply (IH c Hc).
    intros l t Hin. apply Hsel. right. apply in_flat_map. eauto. }
  pose proof (Hsel label tagName (or_introl eq_refl)) as Hhere.
  simpl. destruct (decide (label ∈ S)) as [Hin|Hout].
  - apply Hhere in Hin. rewrite Hin. destruct keep; [exact Hkids | reflexivity].
  - destruct (p tagName); [elim Hout; now apply Hhere|].
    simpl. now rewrite Hkids.
Qed.

Lemma erase_cut_forest keep p S forest :
  (forall l t, In (l, t) (flat_map querySelectorAll forest) ->
               l ∈ S <-> p t = true) ->
  map erase (flat_map (cut keep S) forest)
  = flat_map (prune keep p) (map erase forest).
Proof.
  intros Hsel. rewrite map_flat_map, flat_map_map. apply flat_map_Forall_ext.
  apply List.Forall_forall. intros n Hn. apply erase_cut.
  intros l t Hin. apply Hsel. apply in_flat_map. eauto.
Qed.

Lemma remove_selected_prune n :
  Dom.remove_selected n = prune false Dom.selected n.
Proof.
  induction n as [data|data|tagName attributes childNodes IH] using Dom.node_ind;
    try reflexivity.
  simpl. now rewrite (flat_map_Forall_ext _ _ _ IH).
Qed.

Lemma unwrap_prune n :
  Dom.unwrap n = prune true (fun tagName => negb (Dom.allowed tagName)) n.
Proof.
  induction n as [data|data|tagName attributes childNodes IH] using Dom.node_ind;
    try reflexivity.
  simpl. rewrite (flat_map_Forall_ext _ _ _ IH).
  now destruct (Dom.allowed tagName).
Qed.

(** What a loop leaves of the tree still has distinct labels. *)
Lemma labels_app f1 f2 : labels (f1 ++ f2) = (labels f1 ++ labels f2)%list.
Proof. unfold labels. now rewrite List.flat_map_app, map_app. Qed.

Lemma cut_labels_sublist keep S n : labels (cut keep S n) `sublist_of` labels [n].
Proof.
  induction n as [data|data|label tagName attributes childNodes IH] using node_ind;
    try reflexivity.
  assert (Hkids : labels (flat_map (cut keep S) childNodes)
                  `sublist_of` labels childNodes).
  { clear -IH. induction IH as [|c cs Hc _ IHcs]; [reflexivity|].
    simpl. rewrite labels_app, (labels_cons c cs). now apply sublist_app. }
  rewrite labels_element. simpl. destruct (decide (label ∈ S)).
  - destruct keep; [now apply sublist_cons | apply sublist_nil_l].
  - rewrite labels_element. now apply sublist_skip.
Qed.

Lemma cut_NoDup keep S forest :
  NoDup (labels forest) -> NoDup (labels (flat_map (cut keep S) forest)).
Proof.
  intros Hnd.
  assert (Hsub : labels (flat_map (cut keep S) forest) `sublist_of` labels forest);
    [|exact (sublist_NoDup _ _ Hnd Hsub)].
  clear Hnd. induction forest as [|n forest IH]; [reflexivity|].
  simpl. rewrite labels_app, (labels_cons n forest).
  apply sublist_app; [apply cut_labels_sublist | exact IH].
Qed.

(** The first loop, run on a tree with distinct labels, computes
    [remove_selected]. *)
Lemma remove_loop_cut forest :
  NoDup (labels forest) ->
  remove_loop forest
  = flat_map (cut false (list_to_set (map fst
       (List.filter (fun el => Dom.selected (snd el))
          (flat_map querySelectorAll forest))))) forest.
Proof.
  intros Hnd. unfold remove_loop.
  rewrite <- (cut_empty_forest false forest) at 2.
  rewrite forEach_detach by exact Hnd. now rewrite (left_id_L ∅ (∪)).
Qed.

Lemma remove_loop_spec forest :
  NoDup (labels forest) ->
  map erase (remove_loop forest) = flat_map Dom.remove_selected (map erase forest).
Proof.
  intros Hnd. rewrite remove_loop_cut by exact Hnd.
  rewrite (erase_cut_forest false Dom.selected).
  - apply flat_map_ext. intros n. symmetry. apply remove_selected_prune.
  - intros l t Hin. now apply selected_labels.
Qed.

(** The second loop computes [unwrap]. *)
Lemma unwrap_loop_spec forest :
  NoDup (labels forest) ->
  map erase (unwrap_loop forest) = flat_map Dom.unwrap (map erase forest).
Proof.
  intros Hnd. unfold unwrap_loop.
  rewrite (fold_left_when (fun tree el => flat_map (detach true (fst el)) tree)
             (fun el => negb (Dom.allowed (snd el)))).
  rewrite <- (cut_empty_forest true forest) at 2.
  rewrite forEach_detach by exact Hnd. rewrite (left_id_L ∅ (∪)).
  rewrite (erase_cut_forest true (fun tagName => negb (Dom.allowed tagName))).
  - apply flat_map_ext. intros n. symmetry. apply unwrap_prune.
  - intros l t Hin.
    now apply (selected_labels (fun tagName => negb (Dom.allowed tagName))).
Qed.






End LoopFacts.

(** The loops on the tree of a pasted card: a [div] around a paragraph
    (with an event handler and a [font] element inside) and a script. *)
Example sanitize_loop_sample :
  Live.sanitize_loop
    [Live.Element 0 "DIV" [("class", "card")]
       [Live.Element 1 "P" [("onclick", "track()")]
          [Live.Element 2 "FONT" [("color", "red")] [Live.Text "Breaking"];
           Live.Text " news"];
        Live.Element 3 "SCRIPT" [] [Live.Text "alert(1)"]]]
  = [Live.Element 1 "P" [("onclick", "track()")]
       [Live.Text "Breaking"; Live.Text " news"]].
Proof. reflexivity. Qed.







(** An example of a paste: the wrapper and the font element go, the
    paragraph stays with its event handler, the script goes with its
    text. *)
Example sanitize_sample :
  Dom.sanitize
    [Dom.Element "DIV" [("class", "card")]
       [Dom.Element "P" [("onclick", "track()")]
          [Dom.Element "FONT" [("color", "red")] [Dom.Text "Breaking"];
           Dom.Text " news"];
        Dom.Element "SCRIPT" [] [Dom.Text "alert(1)"]]]
  = [Dom.Element "P" [("onclick", "track()")]
       [Dom.Text "Breaking"; Dom.Text " news"]].
Proof. reflexivity. Qed.

(** ** The editor: link insertion *)

Section LinkFacts.

Import RichTextEditor.

Variable URL_new : string -> completion URL.

(** The handler returns on every path; nothing it throws escapes it. *)
Lemma handleAddLink_returns mounted selection st :
  exists r, handleAddLink URL_new mounted selection st = Normal r.
Proof.
  unfold handleAddLink.
  destruct (JS.falsy (JS.trim (linkUrl st))); [eauto|].
  destruct (URL_new (linkUrl st)) as [url|e]; simpl; [|eauto].
  destruct (JS.startsWith "http" (protocol url)); simpl; [|eauto].
  destruct mounted; simpl; [|eauto].
  destruct selection; eauto.
Qed.

(** X27.  An input that is blank, that the URL constructor refuses, or whose
    protocol does not begin with "http" is answered with an alert; nothing
    is inserted and the form keeps its state. *)
Lemma handleAddLink_rejects mounted selection st :
  JS.trim (linkUrl st) = ""
  \/ (exists e, URL_new (linkUrl st) = Throw e)
  \/ (exists url, URL_new (linkUrl st) = Normal url
                  /\ JS.startsWith "http" (protocol url) = false) ->
  exists msg,
    handleAddLink URL_new mounted selection st = Normal (st, [Alert msg]).
Proof.
  unfold handleAddLink. intros Hbad.
  destruct (JS.falsy (JS.trim (linkUrl st))) eqn:Hblank; [eauto|].
  apply falsy_false in Hblank.
  destruct Hbad as [Hb|[(e & He)|(url & Hu & Hp)]]; [contradiction| |].
  - rewrite He. simpl. eauto.
  - rewrite Hu. simpl. rewrite Hp. simpl. eauto.
Qed.

(** X28.  A link is inserted only for an input the URL constructor accepts with
    a protocol that begins with "http". *)
Lemma handleAddLink_inserts_only_checked mounted selection st :
  inserts_link (handleAddLink URL_new mounted selection st) = true ->
  exists url, URL_new (linkUrl st) = Normal url
              /\ JS.startsWith "http" (protocol url) = true.
Proof.
  unfold handleAddLink.
  destruct (JS.falsy (JS.trim (linkUrl st))); [discriminate|].
  destruct (URL_new (linkUrl st)) as [url|e]; simpl; [|discriminate].
  destruct (JS.startsWith "http" (protocol url)) eqn:Hp; simpl;
    [|discriminate].
  intros _. exists url. split; [reflexivity | exact Hp].
Qed.

(** C6, the code at the failing input.  The scheme test is a prefix test on
    the protocol, so a URL whose scheme merely begins with "http" passes
    it: for a URL constructor that reads "httpx://a" as a URL of protocol
    "httpx:" (as the URL standard does), the handler shows no prompt and
    inserts the link. *)
Theorem handleAddLink_accepts_http_prefixed_scheme :
  URL_new "httpx://a" = Normal {| protocol := "httpx:" |} ->
  handleAddLink URL_new true (Some Sample.caret) (Sample.link_form "httpx://a")
  = Normal
      ({| showLinkInput := false; linkUrl := ""; linkText := "" |},
       [Focus;
        ExecCommand "insertHTML" (link_markup "httpx://a" "httpx://a");
        UpdateContent]).
Proof.
  intros Hurl. unfold handleAddLink. simpl. rewrite Hurl. reflexivity.
Qed.

End LinkFacts.

Lemma handleAddLink_accepts_http_prefixed_scheme_witness :
  RichTextEditor.inserts_link
    (RichTextEditor.handleAddLink Sample.URL_new true (Some Sample.caret)
       (Sample.link_form "httpx://a"))
  = true.
Proof.
  rewrite (handleAddLink_accepts_http_prefixed_scheme Sample.URL_new).
  - reflexivity.
  - reflexivity.
Defined.

(** Blank input, input without a scheme and an ftp address meet the
    prompt; an https address is inserted. *)
Example handleAddLink_samples :
  let run url :=
    RichTextEditor.handleAddLink Sample.URL_new true (Some Sample.caret)
      (Sample.link_form url) in
  RichTextEditor.alerts (run "   ") = true
  /\ RichTextEditor.alerts (run "example.com/page") = true
  /\ RichTextEditor.alerts (run "ftp://example.com") = true
  /\ RichTextEditor.inserts_link (run "https://example.com") = true.
Proof. repeat split; reflexivity. Qed.

(** * Further properties *)

(** ** The settings form: loading, editing, uploading *)

Section SettingsMore.

Import Settings.

Variable inst : Axios.instance.

(** X1.  A load issues one GET to the collection path and ends with the
    loading flag off.  The record is replaced by the payload when the
    reply reports success and carries one; a rejected load, a reply
    without the success flag and a reply without payload leave the record
    the form had. *)
Theorem fetchSettings_outcome server st :
  let r := fetchSettings inst server st in
  let req := Axios.send inst Axios.GET "/basic-settings" tt ∅ in
  sent r = [req]
  /\ Axios.req_method req = Axios.GET /\ Axios.url req = "/basic-settings"
  /\ loading (final r) = false
  /\ settings (final r)
     = match server req with
       | Axios.Resolved reply =>
           if Response.success reply
           then default (settings st) (Response.data reply)
           else settings st
       | Axios.Rejected _ => settings st
       end.
Proof.
  unfold fetchSettings. simpl.
  repeat split.
  destruct (server _) as [reply|err]; [|reflexivity].
  destruct (Response.data reply), (Response.success reply); reflexivity.
Qed.

Lemma set_url_current type s :
  set_url type (match type with logo => logo_url s | favicon => favicon_url s end) s
  = s.
Proof. destruct s, type; reflexivity. Qed.

(** The record an upload leaves. *)
Lemma handleFileUpload_settings server file type st :
  exists v,
    settings (final (handleFileUpload inst server file type st))
    = set_url type v (settings st).
Proof.
  unfold handleFileUpload.
  destruct (negb (JS.includes validTypes (Settings.type file)));
    [eexists; symmetry; apply set_url_current|].
  destruct (size file >? maxSize type);
    [eexists; symmetry; apply set_url_current|].
  destruct (server _) as [reply|err];
    [|eexists; symmetry; apply set_url_current].
  destruct (Response.success reply);
    [|eexists; symmetry; apply set_url_current].
  destruct (Response.data reply) as [payload|];
    [|eexists; symmetry; apply set_url_current].
  simpl. eexists. reflexivity.
Qed.

Lemma handleFileUpload_id server file type st :
  id (settings (final (handleFileUpload inst server file type st)))
  = id (settings st).
Proof.
  destruct (handleFileUpload_settings server file type st) as [v ->].
  reflexivity.
Qed.

Lemma handleChange_id e st st' :
  handleChange e st = Some st' -> id (settings st') = id (settings st).
Proof.
  unfold handleChange.
  destruct (String.eqb (target_type e) "checkbox").
  - destruct (String.eqb (target_name e) "maintenance_mode"); [|discriminate].
    intros [= <-]. reflexivity.
  - destruct (JS.includes text_fields (target_name e)); [|discriminate].
    intros [= <-]. reflexivity.
Qed.

Lemma step_keeps_identifier st st' :
  truthy_id (id (settings st)) = true ->
  step inst st st' -> id (settings st') = id (settings st).
Proof.
  intros Hid Hstep.
  destruct Hstep as [e st st' _ He|content st|type st|server file type st|server st].
  - now apply handleChange_id in He.
  - reflexivity.
  - reflexivity.
  - apply handleFileUpload_id.
  - rewrite handleSubmit_settings, handleSubmit_sent.
    destruct (server _) as [reply|err]; [|reflexivity].
    destruct (Response.data reply); [|reflexivity].
    rewrite Hid, andb_false_r. reflexivity.
Qed.

(** X3.  Once the record has a truthy identifier, nothing the form does
    changes it: no edit, no upload and no submission, whatever the service
    answers.  Every later submission is therefore an update of the same
    record. *)
Theorem identifier_is_stable st st' :
  truthy_id (id (settings st)) = true ->
  rtc (step inst) st st' ->
  id (settings st') = id (settings st)
  /\ forall server,
       sent (handleSubmit inst server st')
       = [Axios.put inst ("/basic-settings/" ++ id_text (id (settings st)))
            (settings st')].
Proof.
  intros Hid Hsteps.
  assert (Hsame : id (settings st') = id (settings st)).
  { induction Hsteps as [st|st st1 st' Hstep _ IH]; [reflexivity|].
    pose proof (step_keeps_identifier st st1 Hid Hstep) as H1.
    rewrite IH by (rewrite H1; exact Hid). exact H1. }
  split; [exact Hsame|].
  intros server. rewrite handleSubmit_sent, Hsame, Hid. reflexivity.
Qed.

(** Every control of the form is served: [handleChange] accepts the event
    of each of them, writes the value under the control's name and leaves
    every other field. *)
Theorem handleChange_serves_inputs e st :
  In (target_name e, target_type e) inputs ->
  exists st',
    handleChange e st = Some st'
    /\ error st' = error st /\ success st' = success st
    /\ settings st'
       = if String.eqb (target_type e) "checkbox"
         then assign_flag (target_checked e) (settings st)
         else assign_text (target_name e) (target_value e) (settings st).
Proof.
  intros Hin. unfold handleChange.
  destruct e as [name value type checked]. simpl in *.
  repeat (destruct Hin as [[= <- <-]|Hin]; [eexists; simpl; eauto|]).
  destruct Hin.
Qed.

End SettingsMore.

Lemma identifier_is_stable_witness :
  Settings.id
    (Settings.settings
       (Settings.final
          (Settings.handleSubmit Sample.client Sample.accepting
             (Settings.handleRichTextChange "<p>About us</p>"
                (Sample.settings_form (Some 7))))))
  = Some 7.
Proof.
  apply (identifier_is_stable Sample.client (Sample.settings_form (Some 7))).
  - reflexivity.
  - eapply rtc_l; [apply Settings.step_rich_text|].
    eapply rtc_l; [apply Settings.step_submit|]. apply rtc_refl.
Defined.

(** X4.  A create that succeeds and returns the stored record makes the form
    hold that record, so that the next submission is an update addressed to
    the identifier the service assigned. *)
Theorem create_then_update inst server server' st reply d :
  Settings.truthy_id (Settings.id (Settings.settings st)) = false ->
  server (Axios.post inst "/basic-settings" (Settings.settings st))
  = Axios.Resolved reply ->
  Response.success reply = true ->
  Response.data reply = Some d ->
  Settings.truthy_id (Settings.id d) = true ->
  let st1 := Settings.final (Settings.handleSubmit inst server st) in
  Settings.settings st1 = d
  /\ Settings.sent (Settings.handleSubmit inst server' st1)
     = [Axios.put inst ("/basic-settings/" ++ Settings.id_text (Settings.id d)) d].
Proof.
  intros Hnew Hserver Hok Hdata Hid st1.
  assert (Hd : Settings.settings st1 = d).
  { subst st1. rewrite handleSubmit_settings, handleSubmit_sent, Hnew, Hserver.
    rewrite Hdata, Hok. reflexivity. }
  split; [exact Hd|]. rewrite handleSubmit_sent, Hd, Hid. reflexivity.
Qed.

Lemma create_then_update_witness :
  map (fun req => (Axios.req_method req, Axios.url req))
    (Settings.sent
       (Settings.handleSubmit Sample.client Sample.refusing
          (Settings.final
             (Settings.handleSubmit Sample.client Sample.accepting
                (Sample.settings_form None)))))
  = [(Axios.PUT, "/basic-settings/7")].
Proof.
  destruct (create_then_update Sample.client Sample.accepting Sample.refusing
              (Sample.settings_form None)
              (Response.Make true "saved" (Some (Sample.record (Some 7))))
              (Sample.record (Some 7))
              eq_refl eq_refl eq_refl eq_refl eq_refl)
    as [_ Hsent].
  rewrite Hsent. reflexivity.
Defined.

(** X5.  A create that succeeds but returns no payload shows the success
    message and leaves the form without an identifier, so that the next
    submission creates once more. *)
Theorem create_without_payload_repeats inst server server' st reply :
  Settings.truthy_id (Settings.id (Settings.settings st)) = false ->
  server (Axios.post inst "/basic-settings" (Settings.settings st))
  = Axios.Resolved reply ->
  Response.success reply = true ->
  Response.data reply = None ->
  let st1 := Settings.final (Settings.handleSubmit inst server st) in
  Settings.success st1 = "Settings saved successfully!"
  /\ Settings.settings st1 = Settings.settings st
  /\ Settings.sent (Settings.handleSubmit inst server' st1)
     = [Axios.post inst "/basic-settings" (Settings.settings st)].
Proof.
  intros Hnew Hserver Hok Hdata st1.
  assert (Hs : Settings.settings st1 = Settings.settings st).
  { subst st1. rewrite handleSubmit_settings, handleSubmit_sent, Hnew, Hserver.
    rewrite Hdata. reflexivity. }
  split.
  - subst st1. unfold Settings.handleSubmit. rewrite Hnew, Hserver, Hok, Hdata.
    reflexivity.
  - split; [exact Hs|]. rewrite handleSubmit_sent, Hs, Hnew. reflexivity.
Qed.

Lemma create_without_payload_repeats_witness :
  map (fun req => (Axios.req_method req, Axios.url req))
    (Settings.sent
       (Settings.handleSubmit Sample.client Sample.acknowledging
          (Settings.final
             (Settings.handleSubmit Sample.client Sample.acknowledging
                (Sample.settings_form None)))))
  = [(Axios.POST, "/basic-settings")].
Proof.
  destruct (create_without_payload_repeats Sample.client Sample.acknowledging
              Sample.acknowledging (Sample.settings_form None)
              (Response.Make true "saved" None)
              eq_refl eq_refl eq_refl eq_refl)
    as (_ & _ & Hsent).
  rewrite Hsent. reflexivity.
Defined.

(** X6.  A reply that arrives without the success flag is passed over in
    silence: after the submission the form shows neither an error nor a
    success message, arms no timer and keeps its record. *)
Theorem unsuccessful_reply_is_silent inst server st req reply :
  Settings.sent (Settings.handleSubmit inst server st) = [req] ->
  server req = Axios.Resolved reply ->
  Response.success reply = false ->
  let r := Settings.handleSubmit inst server st in
  Settings.error (Settings.final r) = ""
  /\ Settings.success (Settings.final r) = ""
  /\ Settings.timers r = []
  /\ Settings.saving (Settings.final r) = false.
Proof.
  intros Hsent Hserver Hflag r. subst r.
  rewrite handleSubmit_sent in Hsent. injection Hsent as Hreq.
  unfold Settings.handleSubmit. rewrite Hreq, Hserver, Hflag.
  repeat split.
Qed.

Lemma unsuccessful_reply_is_silent_witness :
  Settings.error
    (Settings.final (Settings.handleSubmit Sample.client Sample.declining
                       (Sample.settings_form None)))
  = "".
Proof.
  apply (unsuccessful_reply_is_silent Sample.client Sample.declining
           (Sample.settings_form None)
           (Axios.post Sample.client "/basic-settings" (Sample.record None))
           (Response.Make false "not saved" None)); reflexivity.
Defined.

(** X7.  When the service rejects a submission with a reply that carries a
    message, the form shows that message word for word; when the reply
    carries none, it shows the fallback text. *)
Theorem rejected_submission_message inst server st req e :
  Settings.sent (Settings.handleSubmit inst server st) = [req] ->
  server req = Axios.Rejected (Axios.Axios e) ->
  Axios.response e <> None ->
  let r := Settings.handleSubmit inst server st in
  Settings.error (Settings.final r)
  = match Axios.response e with
    | Some (Some (String c m)) => String c m
    | _ => "Failed to save settings"
    end
  /\ Settings.error (Settings.final r) <> ""
  /\ Settings.success (Settings.final r) = ""
  /\ Settings.settings (Settings.final r) = Settings.settings st.
Proof.
  intros Hsent Hserver Hreply r. subst r.
  rewrite handleSubmit_sent in Hsent. injection Hsent as Hreq.
  unfold Settings.handleSubmit. rewrite Hreq, Hserver.
  unfold Settings.catch_message, Axios.in_response, Axios.response_message.
  destruct (Axios.response e) as [[[|c m]|]|]; [| | |congruence];
    simpl; repeat split; discriminate.
Qed.

Lemma rejected_submission_message_witness :
  Settings.error
    (Settings.final (Settings.handleSubmit Sample.client Sample.refusing
                       (Sample.settings_form None)))
  = "Site name is required".
Proof.
  apply (rejected_submission_message Sample.client Sample.refusing
           (Sample.settings_form None)
           (Axios.post Sample.client "/basic-settings" (Sample.record None))
           {| Axios.response := Some (Some "Site name is required");
              Axios.has_request := true;
              Axios.message := "Request failed with status code 400" |});
    [reflexivity | reflexivity | discriminate].
Defined.

(** X2.  An upload, whatever the file and whatever the service answers, touches
    no field of the record other than the URL of its own field; the
    identifier in particular stays. *)
Theorem handleFileUpload_touches_one_field inst server file type st :
  (exists v,
     Settings.settings
       (Settings.final (Settings.handleFileUpload inst server file type st))
     = Settings.set_url type v (Settings.settings st))
  /\ Settings.id
       (Settings.settings
          (Settings.final (Settings.handleFileUpload inst server file type st)))
     = Settings.id (Settings.settings st).
Proof.
  split; [apply handleFileUpload_settings | apply handleFileUpload_id].
Qed.


(** X8.  No handler of the settings form leaves its busy flag set: a
    submission ends with [saving] off and a load with [loading] off; an
    upload that got past the checks ends with the flag of its field off,
    one that was turned away leaves that flag as it was; and no upload
    touches the flag of the other field. *)
Theorem busy_flags_end_off inst submit_server load_server upload_server
    file type st :
  let up := Settings.handleFileUpload inst upload_server file type st in
  Settings.saving (Settings.final (Settings.handleSubmit inst submit_server st))
  = false
  /\ Settings.loading (Settings.final (Settings.fetchSettings inst load_server st))
     = false
  /\ flag_of type (Settings.final up)
     = match Settings.sent up with
       | [] => flag_of type st
       | _ => false
       end
  /\ flag_of (other_field type) (Settings.final up) = flag_of (other_field type) st.
Proof.
  intros up. split; [|split; [reflexivity|]].
  - unfold Settings.handleSubmit.
    destruct (submit_server _) as [r|err]; [destruct (Response.success r)|];
      reflexivity.
  - subst up. unfold Settings.handleFileUpload.
    destruct (negb (JS.includes Settings.validTypes (Settings.type file)));
      [split; reflexivity|].
    destruct (Settings.size file >? Settings.maxSize type);
      [split; reflexivity|].
    destruct (upload_server _) as [r|err];
      [destruct (Response.success r); [destruct (Response.data r)|]|];
      destruct type; split; reflexivity.
Qed.



(** X10.  Of the files dropped on an upload area only the first is used, and
    its preview is shown whether or not the upload accepts it: a file the
    checks turn away sends nothing, leaves the record and sets an error
    message, yet becomes the preview. *)
Theorem rejected_file_is_previewed reader inst server file rest type a st :
  ~ upload_accepted file type ->
  let dropped := Settings.handleDrop reader inst server (file :: rest) type a st in
  Settings.preview (fst dropped) = reader file
  /\ Settings.sent (snd dropped) = []
  /\ Settings.settings (Settings.final (snd dropped)) = Settings.settings st
  /\ Settings.error (Settings.final (snd dropped)) <> "".
Proof.
  intros Hrej dropped. subst dropped. simpl.
  split; [reflexivity|]. unfold Settings.handleFileUpload.
  destruct (JS.includes Settings.validTypes (Settings.type file)) eqn:Htype; simpl.
  - destruct (Z.gtb_spec (Settings.size file) (Settings.maxSize type)) as [Hbig|Hle].
    + simpl. repeat split. apply too_large_message_nonempty.
    + elim Hrej. split; [now apply includes_In | exact Hle].
  - repeat split. discriminate.
Qed.

Lemma rejected_file_is_previewed_witness :
  Settings.preview
    (fst (Settings.handleDrop Sample.reading Sample.client Sample.storing
            [Sample.pdf_file; Sample.small_png] Settings.logo
            {| Settings.dragActive := true; Settings.preview := None |}
            (Sample.settings_form None)))
  = Some "data:application/pdf;base64,AAAA".
Proof.
  apply (rejected_file_is_previewed Sample.reading Sample.client Sample.storing
           Sample.pdf_file [Sample.small_png] Settings.logo
           {| Settings.dragActive := true; Settings.preview := None |}
           (Sample.settings_form None)).
  intros [Htype _]. simpl in Htype.
  repeat (destruct Htype as [Htype|Htype]; [discriminate Htype|]).
  exact Htype.
Defined.

(** ** The account forms *)

(** A sign-up form that passes the checks fails every guard of
    [handleRegistration]. *)
Lemma registration_guards f :
  ~ registration_invalid f ->
  (JS.falsy (SignUp.name f) || JS.falsy (SignUp.email f)
   || JS.falsy (SignUp.password f)) = false
  /\ negb (RegExp.test Email.emailRegex (SignUp.email f)) = false
  /\ (Z.of_nat (String.length (SignUp.password f)) <? 6) = false
  /\ negb (String.eqb (SignUp.password f) (SignUp.confirmPassword f)) = false.
Proof.
  unfold registration_invalid. intros Hok.
  destruct (JS.falsy (SignUp.name f)) eqn:Hn;
    [apply falsy_spec in Hn; tauto|].
  destruct (JS.falsy (SignUp.email f)) eqn:He;
    [apply falsy_spec in He; tauto|].
  destruct (JS.falsy (SignUp.password f)) eqn:Hp;
    [apply falsy_spec in Hp; tauto|].
  destruct (RegExp.test Email.emailRegex (SignUp.email f)); [|tauto].
  destruct (Z.ltb_spec (Z.of_nat (String.length (SignUp.password f))) 6);
    [elim Hok; do 4 right; left; lia|].
  destruct (String.eqb_spec (SignUp.password f) (SignUp.confirmPassword f));
    [|tauto].
  repeat split.
Qed.

(** A sign-in form that passes the checks fails both guards of
    [handleLogin]. *)
Lemma login_guards f :
  ~ login_invalid f ->
  (JS.falsy (SignIn.email f) || JS.falsy (SignIn.password f)) = false
  /\ negb (RegExp.test Email.emailRegex (SignIn.email f)) = false.
Proof.
  unfold login_invalid. intros Hok.
  destruct (JS.falsy (SignIn.email f)) eqn:He;
    [apply falsy_spec in He; tauto|].
  destruct (JS.falsy (SignIn.password f)) eqn:Hp;
    [apply falsy_spec in Hp; tauto|].
  destruct (RegExp.test Email.emailRegex (SignIn.email f)); [|tauto].
  split; reflexivity.
Qed.

(** X11.  After a successful registration the form is empty again, the success
    message shows, one redirect to "/" is armed for two seconds later, and
    a second submission before the redirect is stopped by the first check:
    it sends nothing. *)
Theorem registration_success_resets_form inst server server' st :
  ~ registration_invalid (SignUp.formData st) ->
  (exists r,
     server (Axios.post inst "/users/registration"
               {| SignUp.body_name := SignUp.name (SignUp.formData st);
                  SignUp.body_email := SignUp.email (SignUp.formData st);
                  SignUp.body_password := SignUp.password (SignUp.formData st);
                  SignUp.body_role := SignUp.role (SignUp.formData st) |})
     = Axios.Resolved r /\ Response.success r = true) ->
  let done := SignUp.handleRegistration inst server st in
  let again := SignUp.handleRegistration inst server' (SignUp.final done) in
  SignUp.formData (SignUp.final done) = SignUp.empty_form
  /\ SignUp.success (SignUp.final done)
     = "Registration successful! Redirecting to login..."
  /\ SignUp.error (SignUp.final done) = ""
  /\ SignUp.timers done = [(2000, SignUp.RouterPush "/")]
  /\ SignUp.sent again = []
  /\ SignUp.error (SignUp.final again) = "All fields are required".
Proof.
  intros Hok (r & Hserver & Hsuccess) done again. subst again done.
  destruct (registration_guards _ Hok) as (G1 & G2 & G3 & G4).
  assert (Hdone :
    SignUp.handleRegistration inst server st
    = SignUp.Result
        (SignUp.setLoading false
           (SignUp.setFormData SignUp.empty_form
              (SignUp.setSuccess "Registration successful! Redirecting to login..."
                 (SignUp.setSuccess ""
                    (SignUp.setError "" (SignUp.setLoading true st))))))
        [Axios.post inst "/users/registration"
           {| SignUp.body_name := SignUp.name (SignUp.formData st);
              SignUp.body_email := SignUp.email (SignUp.formData st);
              SignUp.body_password := SignUp.password (SignUp.formData st);
              SignUp.body_role := SignUp.role (SignUp.formData st) |}]
        [(2000, SignUp.RouterPush "/")]).
  { unfold SignUp.handleRegistration.
    rewrite G1, G2, G3, G4. cbv zeta. rewrite Hserver, Hsuccess. reflexivity. }
  rewrite Hdone. repeat split.
Qed.

Lemma registration_success_resets_form_witness :
  SignUp.sent
    (SignUp.handleRegistration Sample.client Sample.registering
       (SignUp.final
          (SignUp.handleRegistration Sample.client Sample.registering
             Sample.filled_sign_up)))
  = [].
Proof.
  apply (registration_success_resets_form Sample.client Sample.registering
           Sample.registering Sample.filled_sign_up).
  - intros [H|[H|[H|[H|[H|H]]]]];
      solve [discriminate H | vm_compute in H; lia | apply H; reflexivity].
  - exists (Response.Make true "registered" None). split; reflexivity.
Defined.

(** X12.  Either account form arms its redirect exactly when a request went out
    and its reply reports success; the sign-up form waits 2000 ms, the
    sign-in form 1500 ms, and both go to "/". *)
Theorem redirect_only_on_success
    stringify inst storage reg_server login_server
    (su : SignUp.state) (si : SignIn.state) :
  let reg := SignUp.handleRegistration inst reg_server su in
  let login := SignIn.handleLogin stringify inst storage login_server si in
  SignUp.timers reg
  = match SignUp.sent reg with
    | [req] =>
        match reg_server req with
        | Axios.Resolved r =>
            if Response.success r then [(2000, SignUp.RouterPush "/")] else []
        | Axios.Rejected _ => []
        end
    | _ => []
    end
  /\ SignIn.timers login
     = match SignIn.sent login with
       | [req] =>
           match login_server req with
           | Axios.Resolved r =>
               if SignIn.reply_success r
               then [(1500, SignIn.RouterPush "/")] else []
           | Axios.Rejected _ => []
           end
       | _ => []
       end.
Proof.
  intros reg login. subst reg login. split.
  - unfold SignUp.handleRegistration.
    repeat match goal with
           | |- context [if ?b then _ else _] =>
               lazymatch b with
               | Response.success _ => fail
               | _ => destruct b; [reflexivity|]
               end
           end.
    cbv zeta.
    match goal with |- context [reg_server ?q] => set (req := q) end.
    destruct (reg_server req) as [r|err] eqn:Hreply;
      [destruct (Response.success r) eqn:Hflag|];
      cbv beta iota delta [SignUp.sent SignUp.timers];
      rewrite Hreply; try rewrite Hflag; reflexivity.
  - unfold SignIn.handleLogin.
    repeat match goal with
           | |- context [if ?b then _ else _] =>
               lazymatch b with
               | SignIn.reply_success _ => fail
               | _ => destruct b; [reflexivity|]
               end
           end.
    cbv zeta.
    match goal with |- context [login_server ?q] => set (req := q) end.
    destruct (login_server req) as [r|err] eqn:Hreply;
      [destruct (SignIn.reply_success r) eqn:Hflag|];
      cbv beta iota delta [SignIn.sent SignIn.timers];
      rewrite Hreply; try rewrite Hflag; reflexivity.
Qed.

(** X13.  A reply that arrives without the success flag leaves either account
    form silent: no error message, no success message, no redirect; the
    fields keep what the user typed and the session is untouched. *)
Theorem unsuccessful_account_reply_is_silent
    stringify inst storage reg_server login_server
    (su : SignUp.state) (si : SignIn.state) reg_reply login_reply :
  ~ registration_invalid (SignUp.formData su) ->
  ~ login_invalid (SignIn.formData si) ->
  reg_server (Axios.post inst "/users/registration"
                {| SignUp.body_name := SignUp.name (SignUp.formData su);
                   SignUp.body_email := SignUp.email (SignUp.formData su);
                   SignUp.body_password := SignUp.password (SignUp.formData su);
                   SignUp.body_role := SignUp.role (SignUp.formData su) |})
  = Axios.Resolved reg_reply ->
  Response.success reg_reply = false ->
  login_server (Axios.post inst "/users/login"
                  {| SignIn.body_email := SignIn.email (SignIn.formData si);
                     SignIn.body_password := SignIn.password (SignIn.formData si) |})
  = Axios.Resolved login_reply ->
  SignIn.reply_success login_reply = false ->
  let reg := SignUp.handleRegistration inst reg_server su in
  let login := SignIn.handleLogin stringify inst storage login_server si in
  (SignUp.error (SignUp.final reg) = ""
   /\ SignUp.success (SignUp.final reg) = ""
   /\ SignUp.timers reg = []
   /\ SignUp.formData (SignUp.final reg) = SignUp.formData su)
  /\ (SignIn.error (SignIn.final login) = ""
      /\ SignIn.success (SignIn.final login) = ""
      /\ SignIn.timers login = []
      /\ SignIn.formData (SignIn.final login) = SignIn.formData si
      /\ SignIn.localStorage login = storage
      /\ SignIn.axiosInstance login = inst).
Proof.
  intros Hsu Hsi Hreg Hregno Hlogin Hloginno reg login. subst reg login.
  destruct (registration_guards _ Hsu) as (G1 & G2 & G3 & G4).
  destruct (login_guards _ Hsi) as (L1 & L2).
  unfold SignUp.handleRegistration, SignIn.handleLogin.
  rewrite G1, G2, G3, G4, L1, L2. cbv zeta.
  rewrite Hreg, Hregno, Hlogin, Hloginno. repeat split.
Qed.

Lemma unsuccessful_account_reply_is_silent_witness :
  SignIn.error
    (SignIn.final
       (SignIn.handleLogin Sample.stringify Sample.client ∅ Sample.denying
          (Sample.sign_in_form "ann@example.com" "secret1")))
  = "".
Proof.
  apply (unsuccessful_account_reply_is_silent Sample.stringify Sample.client ∅
           (fun _ => Axios.Resolved (Response.Make false "taken" None))
           Sample.denying Sample.filled_sign_up
           (Sample.sign_in_form "ann@example.com" "secret1")
           (Response.Make false "taken" None)
           {| SignIn.reply_success := false;
              SignIn.reply_message := "Invalid credentials";
              SignIn.token := None; SignIn.user := None |}).
  - intros [H|[H|[H|[H|[H|H]]]]];
      solve [discriminate H | vm_compute in H; lia | apply H; reflexivity].
  - intros [H|[H|H]]; discriminate H.
  - reflexivity.
  - reflexivity.
  - reflexivity.
  - reflexivity.
Defined.

(** X14.  Every request the account forms send carries checked fields: a
    registration request has a name, an address of the shape
    segment@segment.segment and a password of at least six characters; a
    login request has such an address and a password that is not empty. *)
Theorem requests_carry_checked_fields
    stringify inst storage reg_server login_server
    (su : SignUp.state) (si : SignIn.state) :
  (forall req,
     In req (SignUp.sent (SignUp.handleRegistration inst reg_server su)) ->
     SignUp.body_name (Axios.data req) <> ""
     /\ email_shaped (SignUp.body_email (Axios.data req))
     /\ (6 <= String.length (SignUp.body_password (Axios.data req)))%nat)
  /\ (forall req,
        In req (SignIn.sent
                  (SignIn.handleLogin stringify inst storage login_server si)) ->
        email_shaped (SignIn.body_email (Axios.data req))
        /\ SignIn.body_password (Axios.data req) <> "").
Proof.
  split; intros req Hin.
  - destruct (handleRegistration_checks inst reg_server su)
      as [(_ & Hsent & _)|(Hok & Hsent)]; rewrite Hsent in Hin;
      [destruct Hin|].
    destruct Hin as [<-|[]]. simpl. unfold registration_invalid in Hok.
    split; [tauto|]. split.
    + apply emailRegex_shape.
      destruct (RegExp.test Email.emailRegex (SignUp.email (SignUp.formData su)));
        tauto.
    + destruct (le_lt_dec 6 (String.length (SignUp.password (SignUp.formData su))));
        tauto.
  - destruct (handleLogin_checks stringify inst storage login_server si)
      as [(_ & Hsent & _)|(Hok & Hsent)]; rewrite Hsent in Hin;
      [destruct Hin|].
    destruct Hin as [<-|[]]. simpl. unfold login_invalid in Hok.
    split; [|tauto]. apply emailRegex_shape.
    destruct (RegExp.test Email.emailRegex (SignIn.email (SignIn.formData si)));
      tauto.
Qed.

Lemma requests_carry_checked_fields_witness :
  email_shaped "ann@example.com".
Proof.
  destruct (requests_carry_checked_fields Sample.stringify Sample.client ∅
              Sample.registering Sample.authenticating Sample.filled_sign_up
              (Sample.sign_in_form "ann@example.com" "secret1"))
    as [_ Hlogin].
  apply (Hlogin (Axios.post Sample.client "/users/login"
                   {| SignIn.body_email := "ann@example.com";
                      SignIn.body_password := "secret1" |})).
  left. reflexivity.
Defined.

(** X15.  When the client library rejects a request of an account form, the
    form keeps its fields and arms no redirect.  The sign-up form then
    shows a message unless the failure is an error whose own message is
    empty: a reply without a message gets "Registration failed".  The
    sign-in form shows the message of the reply as it is, so it stays
    silent exactly when the reply carries an empty message. *)
Theorem silent_rejections
    stringify inst storage reg_server login_server
    (su : SignUp.state) (si : SignIn.state) reg_err login_err :
  ~ registration_invalid (SignUp.formData su) ->
  ~ login_invalid (SignIn.formData si) ->
  reg_server (Axios.post inst "/users/registration"
                {| SignUp.body_name := SignUp.name (SignUp.formData su);
                   SignUp.body_email := SignUp.email (SignUp.formData su);
                   SignUp.body_password := SignUp.password (SignUp.formData su);
                   SignUp.body_role := SignUp.role (SignUp.formData su) |})
  = Axios.Rejected reg_err ->
  login_server (Axios.post inst "/users/login"
                  {| SignIn.body_email := SignIn.email (SignIn.formData si);
                     SignIn.body_password := SignIn.password (SignIn.formData si) |})
  = Axios.Rejected login_err ->
  let reg := SignUp.handleRegistration inst reg_server su in
  let login := SignIn.handleLogin stringify inst storage login_server si in
  (SignUp.error (SignUp.final reg) = "" <-> reg_err = Axios.Native "")
  /\ (SignIn.error (SignIn.final login) = ""
      <-> exists e, login_err = Axios.Axios e
                    /\ Axios.response e = Some (Some ""))
  /\ SignUp.formData (SignUp.final reg) = SignUp.formData su
  /\ SignIn.formData (SignIn.final login) = SignIn.formData si
  /\ SignUp.timers reg = [] /\ SignIn.timers login = [].
Proof.
  intros Hsu Hsi Hreg Hlogin reg login. subst reg login.
  destruct (registration_guards _ Hsu) as (G1 & G2 & G3 & G4).
  destruct (login_guards _ Hsi) as (L1 & L2).
  unfold SignUp.handleRegistration, SignIn.handleLogin.
  rewrite G1, G2, G3, G4, L1, L2. cbv zeta. rewrite Hreg, Hlogin. simpl.
  split; [|split; [|repeat split]].
  - destruct reg_err as [e|m|]; simpl.
    + split; [|discriminate]. intros H.
      now apply or_else_fallback_nonempty in H.
    + split; congruence.
    + split; discriminate.
  - destruct login_err as [e|m|]; simpl.
    + destruct e as [[[m|]|] has msg]; simpl.
      * split; [intros ->; eauto|]. intros (e & [= <-] & [= ->]). reflexivity.
      * split; [discriminate|]. intros (e & [= <-] & H). discriminate H.
      * split; [destruct has; discriminate|].
        intros (e & [= <-] & H). discriminate H.
    + split; [discriminate|]. intros (e & H & _). discriminate H.
    + split; [discriminate|]. intros (e & H & _). discriminate H.
Qed.

Lemma silent_rejections_witness :
  SignIn.error
    (SignIn.final
       (SignIn.handleLogin Sample.stringify Sample.client ∅
          (fun _ => Axios.Rejected
             (Axios.Axios {| Axios.response := Some (Some "");
                             Axios.has_request := true;
                             Axios.message := "Request failed" |}))
          (Sample.sign_in_form "ann@example.com" "secret1")))
  = "".
Proof.
  destruct (silent_rejections Sample.stringify Sample.client ∅
              (fun _ => Axios.Rejected Axios.Thrown)
              (fun _ => Axios.Rejected
                 (Axios.Axios {| Axios.response := Some (Some "");
                                 Axios.has_request := true;
                                 Axios.message := "Request failed" |}))
              Sample.filled_sign_up
              (Sample.sign_in_form "ann@example.com" "secret1")
              Axios.Thrown
              (Axios.Axios {| Axios.response := Some (Some "");
                              Axios.has_request := true;
                              Axios.message := "Request failed" |}))
    as (_ & Hsilent & _).
  - intros [H|[H|[H|[H|[H|H]]]]];
      solve [discriminate H | vm_compute in H; lia | apply H; reflexivity].
  - intros [H|[H|H]]; discriminate H.
  - reflexivity.
  - reflexivity.
  - apply Hsilent. eexists. split; reflexivity.
Defined.

(** X16.  A reply that reports success but lacks the token is stored all the
    same: storage then holds the text "undefined" under "token", the
    shared client sends "Bearer undefined", and the redirect is armed. *)
Theorem login_without_token stringify inst storage server st reply :
  ~ login_invalid (SignIn.formData st) ->
  server (Axios.post inst "/users/login"
            {| SignIn.body_email := SignIn.email (SignIn.formData st);
               SignIn.body_password := SignIn.password (SignIn.formData st) |})
  = Axios.Resolved reply ->
  SignIn.reply_success reply = true ->
  SignIn.token reply = None ->
  let r := SignIn.handleLogin stringify inst storage server st in
  SignIn.localStorage r !! "token" = Some "undefined"
  /\ Axios.common (SignIn.axiosInstance r) !! "Authorization"
     = Some "Bearer undefined"
  /\ SignIn.success (SignIn.final r) = "Login successful! Redirecting..."
  /\ SignIn.timers r = [(1500, SignIn.RouterPush "/")].
Proof.
  intros Hok Hserver Hflag Htoken r. subst r.
  destruct (login_guards _ Hok) as (L1 & L2).
  unfold SignIn.handleLogin. rewrite L1, L2. cbv zeta.
  rewrite Hserver, Hflag, Htoken. simpl.
  split; [rewrite lookup_insert_ne by discriminate; apply lookup_insert_eq|].
  split; [apply lookup_insert_eq|]. split; reflexivity.
Qed.

Lemma login_without_token_witness :
  SignIn.localStorage
    (SignIn.handleLogin Sample.stringify Sample.client ∅
       (fun _ => Axios.Resolved
          {| SignIn.reply_success := true; SignIn.reply_message := "welcome";
             SignIn.token := None; SignIn.user := Some Sample.ann |})
       (Sample.sign_in_form "ann@example.com" "secret1"))
  !! "token"
  = Some "undefined".
Proof.
  apply (login_without_token Sample.stringify Sample.client ∅
           (fun _ => Axios.Resolved
              {| SignIn.reply_success := true; SignIn.reply_message := "welcome";
                 SignIn.token := None; SignIn.user := Some Sample.ann |})
           (Sample.sign_in_form "ann@example.com" "secret1")
           {| SignIn.reply_success := true; SignIn.reply_message := "welcome";
              SignIn.token := None; SignIn.user := Some Sample.ann |}).
  - intros [H|[H|H]]; discriminate H.
  - reflexivity.
  - reflexivity.
  - reflexivity.
Defined.

(** X17.  Login, mount, logout: a header mounted after a successful login shows
    the user of the reply, provided the stored text parses back to that
    user; logging out then removes both entries, shows the logged-out
    state, and leaves under every other key what storage held before the
    login. *)
Theorem login_mount_logout
    stringify parse inst storage server st reply tok u :
  ~ login_invalid (SignIn.formData st) ->
  server (Axios.post inst "/users/login"
            {| SignIn.body_email := SignIn.email (SignIn.formData st);
               SignIn.body_password := SignIn.password (SignIn.formData st) |})
  = Axios.Resolved reply ->
  SignIn.reply_success reply = true ->
  SignIn.token reply = Some tok ->
  SignIn.user reply = Some u ->
  tok <> "" ->
  stringify u <> "" ->
  parse (stringify u) = Some u ->
  let stored := SignIn.localStorage
                  (SignIn.handleLogin stringify inst storage server st) in
  let cleared := fst (Header.handleLogout stored) in
  Header.check_login parse stored
  = {| Header.isLoggedIn := true; Header.user := Some u |}
  /\ Header.check_login parse cleared = Header.logged_out
  /\ cleared = delete "user" (delete "token" storage).
Proof.
  intros Hok Hserver Hflag Htok Huser Htok' Hu' Hparse stored cleared.
  subst cleared stored.
  destruct (login_guards _ Hok) as (L1 & L2).
  unfold SignIn.handleLogin. rewrite L1, L2. cbv zeta.
  rewrite Hserver, Hflag, Htok, Huser. simpl.
  split; [|split].
  - unfold Header.check_login.
    rewrite lookup_insert_ne by discriminate.
    rewrite !lookup_insert_eq.
    apply falsy_false in Htok', Hu'. rewrite Htok', Hu', Hparse. reflexivity.
  - unfold Header.check_login.
    rewrite lookup_delete_ne by discriminate. now rewrite lookup_delete_eq.
  - rewrite delete_insert_ne by discriminate.
    rewrite delete_insert_eq. rewrite delete_insert_eq. reflexivity.
Qed.

Lemma login_mount_logout_witness :
  Header.check_login Sample.parse
    (SignIn.localStorage
       (SignIn.handleLogin Sample.stringify Sample.client ∅
          Sample.authenticating
          (Sample.sign_in_form "ann@example.com" "secret1")))
  = {| Header.isLoggedIn := true; Header.user := Some Sample.ann |}.
Proof.
  apply (login_mount_logout Sample.stringify Sample.parse Sample.client ∅
           Sample.authenticating
           (Sample.sign_in_form "ann@example.com" "secret1")
           {| SignIn.reply_success := true; SignIn.reply_message := "welcome";
              SignIn.token := Some "tok-123"; SignIn.user := Some Sample.ann |}
           "tok-123" Sample.ann).
  - intros [H|[H|H]]; discriminate H.
  - reflexivity.
  - reflexivity.
  - reflexivity.
  - reflexivity.
  - discriminate.
  - discriminate.
  - reflexivity.
Defined.

(** ** Strings *)

Lemma append_cons c u v : (String c u ++ v)%string = String c (u ++ v).
Proof. reflexivity. Qed.

Lemma append_nil_l v : ("" ++ v)%string = v.
Proof. reflexivity. Qed.

Lemma append_nil_r s : (s ++ "")%string = s.
Proof.
  induction s as [|c s IH]; [reflexivity|]. now rewrite append_cons, IH.
Qed.

Lemma append_assoc a b c : ((a ++ b) ++ c)%string = (a ++ (b ++ c))%string.
Proof.
  induction a as [|k a IH]; [reflexivity|]. now rewrite !append_cons, IH.
Qed.

Lemma length_append a b :
  String.length (a ++ b) = (String.length a + String.length b)%nat.
Proof.
  induction a as [|k a IH]; [reflexivity|].
  rewrite append_cons. simpl. now rewrite IH.
Qed.

Lemma rev_app_append s1 : forall s2,
  String.rev_app s1 s2 = (String.rev s1 ++ s2)%string.
Proof.
  unfold String.rev. induction s1 as [|k s1 IH]; intros s2; [reflexivity|].
  simpl. rewrite (IH (String k s2)), (IH (String k "")), append_assoc.
  reflexivity.
Qed.

Lemma rev_cons k s : String.rev (String k s) = (String.rev s ++ String k "")%string.
Proof. unfold String.rev at 1. simpl. apply rev_app_append. Qed.

Lemma rev_append a b : String.rev (a ++ b) = (String.rev b ++ String.rev a)%string.
Proof.
  induction a as [|k a IH].
  - rewrite append_nil_l. change (String.rev "") with "". now rewrite append_nil_r.
  - rewrite append_cons, !rev_cons. now rewrite IH, append_assoc.
Qed.

Lemma rev_involutive s : String.rev (String.rev s) = s.
Proof.
  induction s as [|k s IH]; [reflexivity|].
  rewrite rev_cons, rev_append, IH. reflexivity.
Qed.

Lemma all_chars_rev p s : all_chars p (String.rev s) = all_chars p s.
Proof.
  induction s as [|k s IH]; [reflexivity|].
  rewrite rev_cons, all_chars_app, IH. simpl. rewrite andb_true_r. apply andb_comm.
Qed.

Lemma strip_spaces_app a b :
  strip_spaces (a ++ b) = (strip_spaces a ++ strip_spaces b)%string.
Proof.
  induction a as [|k a IH]; [reflexivity|].
  rewrite append_cons. simpl. destruct (JS.is_space k); [exact IH|].
  now rewrite append_cons, IH.
Qed.

Lemma strip_spaces_rev s : strip_spaces (String.rev s) = String.rev (strip_spaces s).
Proof.
  induction s as [|k s IH]; [reflexivity|].
  rewrite rev_cons, strip_spaces_app, IH. simpl.
  destruct (JS.is_space k); [apply append_nil_r | now rewrite rev_cons].
Qed.

Lemma strip_spaces_trimStart s : strip_spaces (JS.trimStart s) = strip_spaces s.
Proof.
  induction s as [|k s IH]; [reflexivity|].
  simpl. destruct (JS.is_space k) eqn:Hk; [exact IH|]. simpl. now rewrite Hk.
Qed.

(** Trimming removes white space only. *)
Lemma strip_spaces_trim s : strip_spaces (JS.trim s) = strip_spaces s.
Proof.
  unfold JS.trim.
  rewrite strip_spaces_rev, strip_spaces_trimStart, strip_spaces_rev,
    rev_involutive.
  apply strip_spaces_trimStart.
Qed.

Lemma strip_spaces_blank s :
  strip_spaces s = "" <-> all_chars JS.is_space s = true.
Proof.
  induction s as [|k s IH]; [simpl; tauto|].
  simpl. destruct (JS.is_space k); simpl; [exact IH|]. split; discriminate.
Qed.

Lemma strip_spaces_length s : (String.length (strip_spaces s) <= String.length s)%nat.
Proof.
  induction s as [|k s IH]; [reflexivity|].
  simpl. destruct (JS.is_space k); simpl; lia.
Qed.

Lemma trimStart_blank s :
  JS.trimStart s = "" <-> all_chars JS.is_space s = true.
Proof.
  induction s as [|k s IH]; [simpl; tauto|].
  simpl. destruct (JS.is_space k); simpl; [exact IH|]. split; discriminate.
Qed.

Lemma trimStart_keeps s :
  all_chars JS.is_space (JS.trimStart s) = true -> all_chars JS.is_space s = true.
Proof.
  induction s as [|k s IH]; [simpl; tauto|].
  simpl. destruct (JS.is_space k) eqn:Hk; simpl; [exact IH|]. now rewrite Hk.
Qed.

Lemma rev_empty s : String.rev s = "" -> s = "".
Proof. intros H. rewrite <- (rev_involutive s), H. reflexivity. Qed.

(** A string trims to nothing exactly when it is white space throughout. *)
Lemma trim_blank s : JS.trim s = "" <-> all_chars JS.is_space s = true.
Proof.
  unfold JS.trim. split.
  - intros H. apply rev_empty, trimStart_blank in H.
    rewrite all_chars_rev in H. now apply trimStart_keeps.
  - intros H. apply trimStart_blank in H. rewrite H. reflexivity.
Qed.

Lemma trim_blank_falsy s : JS.falsy (JS.trim s) = all_chars JS.is_space s.
Proof.
  destruct (all_chars JS.is_space s) eqn:Hb.
  - apply falsy_spec, trim_blank, Hb.
  - apply falsy_false. intros H. apply trim_blank in H. congruence.
Qed.

(** ** The search box of the header *)

Lemma encode_unit_safe c : all_chars query_safe (JS.encode_unit c) = true.
Proof. destruct c as [[] [] [] [] [] [] [] []]; reflexivity. Qed.

Lemma encode_unit_nonempty c : JS.encode_unit c <> "".
Proof. destruct c as [[] [] [] [] [] [] [] []]; discriminate. Qed.

(** X19.  A query of white space only does nothing.  Any other query sends the
    reader to the search route and resets the box; the query is encoded
    as typed (not trimmed), and what follows "/search?q=" consists of
    letters, digits, the marks [- _ . ! ~ * ' ( )] and percent escapes, so
    no character of the query can end the parameter or start another. *)
Theorem handleSearch_route st :
  let st' := fst (Header.handleSearch st) in
  let pushed := snd (Header.handleSearch st) in
  if all_chars JS.is_space (Header.searchQuery st)
  then st' = st /\ pushed = None
  else st' = {| Header.searchQuery := ""; Header.showSearch := false |}
       /\ pushed
          = Some ("/search?q=" ++ JS.encodeURIComponent (Header.searchQuery st))
       /\ JS.encodeURIComponent (Header.searchQuery st) <> ""
       /\ all_chars query_safe (JS.encodeURIComponent (Header.searchQuery st))
          = true.
Proof.
  unfold Header.handleSearch. rewrite trim_blank_falsy.
  destruct (all_chars JS.is_space (Header.searchQuery st)) eqn:Hblank; simpl.
  - split; reflexivity.
  - split; [reflexivity|]. split; [reflexivity|]. split.
    + destruct (Header.searchQuery st) as [|c q]; [discriminate Hblank|].
      simpl. intros H. apply append_empty in H as [H _].
      exact (encode_unit_nonempty c H).
    + clear Hblank. induction (Header.searchQuery st) as [|c q IH];
        [reflexivity|].
      simpl. rewrite all_chars_app, encode_unit_safe, IH. reflexivity.
Qed.

(** ** The editor: counts, images, tables and alignment *)

Lemma join_empty_cons x l : JS.join "" (x :: l) = (x ++ JS.join "" l)%string.
Proof. destruct l; simpl; [now rewrite append_nil_r | reflexivity]. Qed.

Lemma join_filter_cons x l :
  JS.join "" (List.filter (fun word => (0 <? String.length word)%nat) (x :: l))
  = (x ++ JS.join ""
            (List.filter (fun word => (0 <? String.length word)%nat) l))%string.
Proof. destruct x; [reflexivity | simpl; apply join_empty_cons]. Qed.

(** The pieces of the split are free of white space, and put together
    they are the subject without its white space. *)
Lemma split_spaces_go_spec s : forall acc in_run,
  (in_run = true -> acc = "") ->
  all_chars (fun c => negb (JS.is_space c)) acc = true ->
  Forall (fun w => all_chars (fun c => negb (JS.is_space c)) w = true)
    (JS.split_spaces_go acc in_run s)
  /\ JS.join ""
       (List.filter (fun word => (0 <? String.length word)%nat)
          (JS.split_spaces_go acc in_run s))
     = (String.rev acc ++ strip_spaces s)%string.
Proof.
  induction s as [|c rest IH]; intros acc in_run Hrun Hacc.
  - split.
    + constructor; [now rewrite all_chars_rev | constructor].
    + simpl JS.split_spaces_go. rewrite join_filter_cons. reflexivity.
  - simpl JS.split_spaces_go. simpl strip_spaces.
    destruct (JS.is_space c) eqn:Hc.
    + destruct (IH "" true (fun _ => eq_refl) eq_refl) as [Hall Hjoin].
      change (String.rev "") with "" in Hjoin. rewrite append_nil_l in Hjoin.
      destruct in_run.
      * rewrite (Hrun eq_refl). split; [exact Hall | exact Hjoin].
      * split; [constructor; [now rewrite all_chars_rev | exact Hall]|].
        rewrite join_filter_cons, Hjoin. reflexivity.
    + destruct (IH (String c acc) false) as [Hall Hjoin].
      * discriminate.
      * simpl. now rewrite Hc, Hacc.
      * split; [exact Hall|].
        rewrite Hjoin, rev_cons, append_assoc. reflexivity.
Qed.

Lemma join_length_nonempty l :
  Forall (fun w : string => w <> "") l ->
  (length l <= String.length (JS.join "" l))%nat.
Proof.
  induction 1 as [|w l Hw _ IH]; [reflexivity|].
  rewrite join_empty_cons, length_append. destruct w; [contradiction|].
  simpl. lia.
Qed.

(** X20.  The word count counts runs of characters that are not white space:
    every counted word is non-empty and free of white space, the words put
    together are the text without its white space, the count is zero
    exactly for a text of white space only, and it never exceeds the
    character count. *)
Theorem updateCounts_words text :
  Forall (fun w => w <> ""
                   /\ all_chars (fun c => negb (JS.is_space c)) w = true)
    (RichTextEditor.words text)
  /\ JS.join "" (RichTextEditor.words text) = strip_spaces text
  /\ (fst (RichTextEditor.updateCounts text) =? 0)%nat
     = all_chars JS.is_space text
  /\ (fst (RichTextEditor.updateCounts text)
      <= snd (RichTextEditor.updateCounts text))%nat.
Proof.
  unfold RichTextEditor.updateCounts, RichTextEditor.words, JS.split_spaces.
  destruct (split_spaces_go_spec (JS.trim text) "" false) as [Hall Hjoin];
    [discriminate | reflexivity |].
  change (String.rev "") with "" in Hjoin.
  rewrite append_nil_l, strip_spaces_trim in Hjoin.
  set (ws := List.filter (fun word => (0 <? String.length word)%nat)
               (JS.split_spaces_go "" false (JS.trim text))) in *.
  assert (Hws : Forall (fun w => w <> ""
                   /\ all_chars (fun c => negb (JS.is_space c)) w = true) ws).
  { apply List.Forall_forall. intros w Hin. apply filter_In in Hin as [Hin Hlen].
    split.
    - intros ->. discriminate Hlen.
    - rewrite List.Forall_forall in Hall. now apply Hall. }
  assert (Hne : Forall (fun w : string => w <> "") ws).
  { eapply List.Forall_impl; [|exact Hws]. simpl. tauto. }
  split; [exact Hws|]. split; [exact Hjoin|]. simpl. split.
  - destruct ws as [|w ws'].
    + simpl in Hjoin. symmetry in Hjoin. apply strip_spaces_blank in Hjoin.
      now rewrite Hjoin.
    + simpl. symmetry.
      destruct (all_chars JS.is_space text) eqn:Hblank; [|reflexivity].
      apply strip_spaces_blank in Hblank.
      rewrite join_empty_cons, Hblank in Hjoin.
      apply append_empty in Hjoin as [Hw _].
      inversion Hne; subst. contradiction.
  - pose proof (join_length_nonempty ws Hne) as Hlen.
    rewrite Hjoin in Hlen. pose proof (strip_spaces_length text). lia.
Qed.

(** X21.  Every file the settings form accepts for an upload, the image button
    of the editor accepts as well: its type begins with "image/" and its
    size is within 5 MiB.  Of a selection of several files the editor reads
    the first. *)
Theorem settings_upload_is_editor_image file rest type :
  upload_accepted file type ->
  RichTextEditor.handleImageUpload (file :: rest)
  = RichTextEditor.ReadAsDataURL file.
Proof.
  intros [Htype Hsize]. unfold RichTextEditor.handleImageUpload.
  assert (Hprefix : JS.startsWith "image/" (Settings.type file) = true).
  { simpl in Htype.
    repeat (destruct Htype as [<-|Htype]; [reflexivity|]). destruct Htype. }
  rewrite Hprefix. simpl negb. cbv iota.
  assert (Hle : (Settings.size file >? 5 * 1024 * 1024) = false).
  { destruct (Z.gtb_spec (Settings.size file) (5 * 1024 * 1024));
      [|reflexivity].
    destruct type; simpl in Hsize; lia. }
  now rewrite Hle.
Qed.

Lemma settings_upload_is_editor_image_witness :
  RichTextEditor.handleImageUpload [Sample.small_png; Sample.pdf_file]
  = RichTextEditor.ReadAsDataURL Sample.small_png.
Proof.
  apply (settings_upload_is_editor_image Sample.small_png [Sample.pdf_file]
           Settings.logo).
  split; [simpl; tauto | simpl; lia].
Defined.

Lemma for_loop_append {x : string} (body : Z -> string -> string) :
  (forall i html, body i html = (html ++ x)%string) ->
  forall rounds i html,
    RichTextEditor.for_loop rounds i body html
    = (html ++ repeat_string rounds x)%string.
Proof.
  intros Hbody. induction rounds as [|rounds IH]; intros i html; simpl.
  - now rewrite append_nil_r.
  - now rewrite IH, Hbody, append_assoc.
Qed.

(** X22.  The markup [insertTable] builds, in closed form: the opening tag, a
    row for every step of the outer loop, each holding a cell for every
    step of the inner loop, and the closing tag with a line break.  A
    count below one gives no row, or rows without cells.  Without an
    editor nothing happens. *)
Theorem insertTable_markup rows cols :
  RichTextEditor.insertTable true rows cols
  = [RichTextEditor.Focus;
     RichTextEditor.ExecCommand "insertHTML"
       (RichTextEditor.table_open
        ++ repeat_string (Z.to_nat rows)
             ("<tr>" ++ repeat_string (Z.to_nat cols) RichTextEditor.table_cell
              ++ "</tr>")
        ++ "</table><br>");
     RichTextEditor.UpdateContent]
  /\ RichTextEditor.insertTable false rows cols = [].
Proof.
  split; [|reflexivity].
  unfold RichTextEditor.insertTable, RichTextEditor.for_upto. cbv zeta.
  rewrite (for_loop_append
             (x := ("<tr>" ++ repeat_string (Z.to_nat cols) RichTextEditor.table_cell
                    ++ "</tr>")%string)).
  - now rewrite append_assoc.
  - intros i html.
    rewrite (for_loop_append (x := RichTextEditor.table_cell));
      [|reflexivity].
    now rewrite !append_assoc.
Qed.

(** X23.  The alignment buttons of the toolbar and the commands the selection
    handler queries agree on left, center and right only: for "justify"
    the button runs the command "justifyJustify", while the state of
    "justifyFull" is what marks the button active. *)
Theorem handleAlign_commands alignment :
  In alignment RichTextEditor.toolbar_alignments ->
  exists command,
    RichTextEditor.handleAlign true alignment
    = [RichTextEditor.Focus; RichTextEditor.ExecCommand command "";
       RichTextEditor.UpdateContent]
    /\ JS.includes RichTextEditor.queried_alignments command
       = negb (String.eqb alignment "justify")
    /\ RichTextEditor.handleAlign false alignment = [].
Proof.
  intros Hin. simpl in Hin.
  destruct Hin as [<-|[<-|[<-|[<-|[]]]]]; eexists; repeat split.
Qed.

Lemma handleAlign_commands_witness :
  exists command,
    RichTextEditor.handleAlign true "justify"
    = [RichTextEditor.Focus; RichTextEditor.ExecCommand command "";
       RichTextEditor.UpdateContent]
    /\ JS.includes RichTextEditor.queried_alignments command = false
    /\ RichTextEditor.handleAlign false "justify" = [].
Proof.
  apply (handleAlign_commands "justify"). simpl. tauto.
Defined.

(** ** The editor: more on paste sanitisation *)

(** No tag name is both in the allow-list and matched by the selector of
    the first loop. *)
Lemma allowed_not_selected tagName :
  Dom.allowed tagName = true -> Dom.selected tagName = false.
Proof.
  unfold Dom.allowed, Dom.selected. intros H. apply includes_In in H.
  simpl in H.
  repeat (destruct H as [<-|H]; [reflexivity|]). destruct H.
Qed.

(** Neither edit changes a tree all of whose elements are allowed. *)
Lemma clean_unchanged n :
  clean n = true -> Dom.remove_selected n = [n] /\ Dom.unwrap n = [n].
Proof.
  induction n as [data|data|tagName attributes childNodes IH]
    using Dom.node_ind; [split; reflexivity | split; reflexivity |].
  simpl. intros H. apply andb_true_iff in H as [Hallowed Hkids].
  rewrite Hallowed, (allowed_not_selected _ Hallowed).
  assert (Hsame : flat_map Dom.remove_selected childNodes = childNodes
                  /\ flat_map Dom.unwrap childNodes = childNodes).
  { clear -IH Hkids. induction IH as [|c cs Hc _ IHcs]; [split; reflexivity|].
    simpl in Hkids. apply andb_true_iff in Hkids as [Hc' Hcs'].
    destruct (Hc Hc') as [Hrc Huc]. destruct (IHcs Hcs') as [Hr Hu].
    simpl. rewrite Hrc, Huc, Hr, Hu. split; reflexivity. }
  destruct Hsame as [-> ->]. split; reflexivity.
Qed.

Lemma clean_forest_unchanged nodes :
  forallb clean nodes = true -> Dom.sanitize nodes = nodes.
Proof.
  unfold Dom.sanitize. induction nodes as [|n nodes IH]; [reflexivity|].
  simpl. intros H. apply andb_true_iff in H as [Hn Hrest].
  destruct (clean_unchanged n Hn) as [Hr Hu].
  rewrite Hr. simpl. rewrite Hu. simpl. f_equal.
  exact (IH Hrest).
Qed.

Lemma unwrap_clean n : forallb clean (Dom.unwrap n) = true.
Proof.
  induction n as [data|data|tagName attributes childNodes IH]
    using Dom.node_ind; [reflexivity | reflexivity |].
  assert (Hkids : forallb clean (flat_map Dom.unwrap childNodes) = true).
  { clear -IH. induction IH as [|c cs Hc _ IHcs]; [reflexivity|].
    simpl. now rewrite forallb_app, Hc, IHcs. }
  simpl. destruct (Dom.allowed tagName) eqn:Hallowed; [|exact Hkids].
  simpl. now rewrite Hallowed, Hkids.
Qed.

Lemma sanitize_clean nodes : forallb clean (Dom.sanitize nodes) = true.
Proof.
  unfold Dom.sanitize.
  induction (flat_map Dom.remove_selected nodes) as [|n rest IH];
    [reflexivity|].
  simpl. now rewrite forallb_app, unwrap_clean, IH.
Qed.

(** X24.  Sanitising is idempotent: what the paste handler inserts consists of
    allowed elements throughout, and pasting it again would insert the
    same tree. *)
Theorem sanitize_idempotent nodes :
  forallb clean (Dom.sanitize nodes) = true
  /\ Dom.sanitize (Dom.sanitize nodes) = Dom.sanitize nodes.
Proof.
  split; [apply sanitize_clean|].
  apply clean_forest_unchanged, sanitize_clean.
Qed.

Lemma texts_unwrap n : flat_map texts (Dom.unwrap n) = texts n.
Proof.
  induction n as [data|data|tagName attributes childNodes IH]
    using Dom.node_ind; [reflexivity | reflexivity |].
  assert (Hkids : flat_map texts (flat_map Dom.unwrap childNodes)
                  = flat_map texts childNodes).
  { clear -IH. induction IH as [|c cs Hc _ IHcs]; [reflexivity|].
    simpl. now rewrite List.flat_map_app, Hc, IHcs. }
  simpl. destruct (Dom.allowed tagName); [|exact Hkids].
  simpl. now rewrite app_nil_r.
Qed.

Lemma texts_remove_selected n :
  flat_map texts (Dom.remove_selected n) = kept_texts n.
Proof.
  induction n as [data|data|tagName attributes childNodes IH]
    using Dom.node_ind; [reflexivity | reflexivity |].
  simpl. destruct (Dom.selected tagName); [reflexivity|].
  simpl. rewrite app_nil_r.
  clear -IH. induction IH as [|c cs Hc _ IHcs]; [reflexivity|].
  simpl. now rewrite List.flat_map_app, Hc, IHcs.
Qed.

(** X25.  Sanitising loses no text and adds none: the text nodes of the
    sanitised tree are, in document order, the text nodes of the pasted
    tree outside its script, style, meta and link elements. *)
Theorem sanitize_keeps_text nodes :
  flat_map texts (Dom.sanitize nodes) = flat_map kept_texts nodes.
Proof.
  unfold Dom.sanitize. induction nodes as [|n nodes IH]; [reflexivity|].
  simpl. rewrite List.flat_map_app, List.flat_map_app, IH. f_equal.
  rewrite <- texts_remove_selected.
  induction (Dom.remove_selected n) as [|m ms IHm]; [reflexivity|].
  simpl. now rewrite List.flat_map_app, texts_unwrap, IHm.
Qed.

Lemma cut_forest_sublist keep S forest :
  Live.labels (flat_map (Live.cut keep S) forest) `sublist_of` Live.labels forest.
Proof.
  induction forest as [|n forest IH]; [reflexivity|].
  simpl. rewrite labels_app, (labels_cons n forest).
  apply sublist_app; [apply cut_labels_sublist | exact IH].
Qed.

Lemma unwrap_loop_cut forest :
  NoDup (Live.labels forest) ->
  Live.unwrap_loop forest
  = flat_map (Live.cut true (list_to_set (map fst
       (List.filter (fun el => negb (Dom.allowed (snd el)))
          (flat_map Live.querySelectorAll forest))))) forest.
Proof.
  intros Hnd. unfold Live.unwrap_loop.
  rewrite (fold_left_when
             (fun tree el => flat_map (Live.detach true (fst el)) tree)
             (fun el => negb (Dom.allowed (snd el)))).
  rewrite <- (cut_empty_forest true forest) at 2.
  rewrite forEach_detach by exact Hnd. now rewrite (left_id_L ∅ (∪)).
Qed.

(** X26.  The two loops of the paste handler, run as written on a live tree
    whose elements are distinct objects, leave the tree [sanitize]
    computes; the elements they leave are elements of the pasted tree, in
    their order, none of them twice. *)
Theorem paste_loops_refine forest :
  NoDup (Live.labels forest) ->
  map Live.erase (Live.sanitize_loop forest)
  = Dom.sanitize (map Live.erase forest)
  /\ Live.labels (Live.sanitize_loop forest) `sublist_of` Live.labels forest
  /\ NoDup (Live.labels (Live.sanitize_loop forest)).
Proof.
  intros Hnd.
  assert (Hnd1 : NoDup (Live.labels (Live.remove_loop forest))).
  { rewrite remove_loop_cut by exact Hnd. now apply cut_NoDup. }
  assert (Hsub : Live.labels (Live.sanitize_loop forest)
                 `sublist_of` Live.labels forest).
  { unfold Live.sanitize_loop. rewrite unwrap_loop_cut by exact Hnd1.
    etransitivity; [apply cut_forest_sublist|].
    rewrite remove_loop_cut by exact Hnd. apply cut_forest_sublist. }
  split; [|split; [exact Hsub | exact (sublist_NoDup _ _ Hnd Hsub)]].
  unfold Live.sanitize_loop, Dom.sanitize.
  rewrite unwrap_loop_spec by exact Hnd1. now rewrite remove_loop_spec.
Qed.

Lemma paste_loops_refine_witness :
  map Live.erase (Live.sanitize_loop Sample.live_card)
  = Dom.sanitize (map Live.erase Sample.live_card).
Proof.
  apply (paste_loops_refine Sample.live_card).
  apply (bool_decide_unpack _). reflexivity.
Defined.

(** ** The editor: more on link insertion *)

Lemma handleAddLink_rejects_witness :
  exists msg,
    RichTextEditor.handleAddLink Sample.URL_new true (Some Sample.caret)
      (Sample.link_form "ftp://files.example")
    = RichTextEditor.Normal
        (Sample.link_form "ftp://files.example", [RichTextEditor.Alert msg]).
Proof.
  apply (handleAddLink_rejects Sample.URL_new true (Some Sample.caret)
           (Sample.link_form "ftp://files.example")).
  right. right. exists {| RichTextEditor.protocol := "ftp:" |}.
  split; reflexivity.
Defined.

Lemma handleAddLink_inserts_only_checked_witness :
  exists url,
    Sample.URL_new "https://news.example/a" = RichTextEditor.Normal url
    /\ JS.startsWith "http" (RichTextEditor.protocol url) = true.
Proof.
  apply (handleAddLink_inserts_only_checked Sample.URL_new true
           (Some Sample.caret) (Sample.link_form "https://news.example/a")).
  reflexivity.
Defined.

(** X29.  When the handler inserts a link, the text it chooses is the
    selected text, or else the text of the link-text field, or else the URL
    itself; so it is never empty.  A selection that spans content is
    replaced by an [a] element built through the DOM, whose [href]
    attribute is the URL field as typed and whose only child is that text,
    followed by a space.  At a caret the handler hands "insertHTML" markup
    into which the URL and the text are spliced as typed, without
    escaping: a double quote in the URL closes the [href] attribute in that
    markup, and what follows it in the URL stands in the tag as markup.  The
    form is closed and its fields are emptied. *)
Theorem handleAddLink_link_text URL_new mounted selection st st' acts :
  RichTextEditor.handleAddLink URL_new mounted selection st
  = RichTextEditor.Normal (st', acts) ->
  existsb RichTextEditor.is_link_insertion acts = true ->
  st' = {| RichTextEditor.showLinkInput := false;
           RichTextEditor.linkUrl := ""; RichTextEditor.linkText := "" |}
  /\ exists sel displayText,
       selection = Some sel
       /\ displayText <> ""
       /\ displayText
          = (if negb (JS.falsy (Dom.selectedText sel)) then Dom.selectedText sel
             else if negb (JS.falsy (RichTextEditor.linkText st))
                  then RichTextEditor.linkText st
                  else RichTextEditor.linkUrl st)
       /\ acts
          = (if (0 <? Dom.rangeCount sel)%nat && negb (Dom.isCollapsed sel)
             then [RichTextEditor.Focus;
                   RichTextEditor.ReplaceSelection
                     (Dom.Element "A"
                        [("href", RichTextEditor.linkUrl st);
                         ("target", "_blank"); ("rel", "noopener noreferrer");
                         ("class", "rich-text-link")]
                        [Dom.Text displayText]);
                   RichTextEditor.InsertTextNode " ";
                   RichTextEditor.UpdateContent]
             else [RichTextEditor.Focus;
                   RichTextEditor.ExecCommand "insertHTML"
                     (RichTextEditor.link_markup (RichTextEditor.linkUrl st)
                        displayText);
                   RichTextEditor.UpdateContent])
       /\ (exists attributes,
             RichTextEditor.link_markup (RichTextEditor.linkUrl st) displayText
             = ("<a href=" ++ RichTextEditor.dq ++ RichTextEditor.linkUrl st
                ++ RichTextEditor.dq ++ attributes ++ ">" ++ displayText
                ++ "</a>&nbsp;")%string
             /\ forall head tail,
                  RichTextEditor.linkUrl st
                  = (head ++ RichTextEditor.dq ++ tail)%string ->
                  RichTextEditor.link_markup (RichTextEditor.linkUrl st)
                    displayText
                  = ("<a href=" ++ RichTextEditor.dq ++ head
                     ++ RichTextEditor.dq ++ tail ++ RichTextEditor.dq
                     ++ attributes ++ ">" ++ displayText
                     ++ "</a>&nbsp;")%string).
Proof.
  unfold RichTextEditor.handleAddLink.
  destruct (JS.falsy (JS.trim (RichTextEditor.linkUrl st))) eqn:Hblank.
  { intros [= <- <-]. discriminate. }
  destruct (URL_new (RichTextEditor.linkUrl st)) as [url|e]; simpl;
    [|intros [= <- <-]; discriminate].
  destruct (JS.startsWith "http" (RichTextEditor.protocol url)); simpl;
    [|intros [= <- <-]; discriminate].
  destruct mounted; simpl; [|intros [= <- <-]; discriminate].
  destruct selection as [sel|]; [|intros [= <- <-]; discriminate].
  intros [= <- <-] _. split; [reflexivity|].
  exists sel,
    (JS.or_else (Dom.selectedText sel)
       (JS.or_else (RichTextEditor.linkText st) (RichTextEditor.linkUrl st))).
  split; [reflexivity|]. split; [|split; [|split]].
  - assert (Hurl : RichTextEditor.linkUrl st <> "").
    { intros H. rewrite H in Hblank. discriminate Hblank. }
    unfold JS.or_else.
    destruct (JS.falsy (Dom.selectedText sel)) eqn:Hs;
      [destruct (JS.falsy (RichTextEditor.linkText st)) eqn:Ht|].
    + exact Hurl.
    + now apply falsy_false.
    + now apply falsy_false.
  - unfold JS.or_else.
    destruct (JS.falsy (Dom.selectedText sel));
      [destruct (JS.falsy (RichTextEditor.linkText st))|]; reflexivity.
  - destruct ((0 <? Dom.rangeCount sel)%nat && negb (Dom.isCollapsed sel));
      reflexivity.
  - exists (" target=" ++ RichTextEditor.dq ++ "_blank" ++ RichTextEditor.dq
            ++ " rel=" ++ RichTextEditor.dq ++ "noopener noreferrer"
            ++ RichTextEditor.dq ++ " class=" ++ RichTextEditor.dq
            ++ "rich-text-link" ++ RichTextEditor.dq)%string.
    assert (Hshape : forall address text,
      RichTextEditor.link_markup address text
      = ("<a href=" ++ RichTextEditor.dq ++ address ++ RichTextEditor.dq
         ++ (" target=" ++ RichTextEditor.dq ++ "_blank" ++ RichTextEditor.dq
             ++ " rel=" ++ RichTextEditor.dq ++ "noopener noreferrer"
             ++ RichTextEditor.dq ++ " class=" ++ RichTextEditor.dq
             ++ "rich-text-link" ++ RichTextEditor.dq)
         ++ ">" ++ text ++ "</a>&nbsp;")%string).
    { intros address text. unfold RichTextEditor.link_markup.
      now rewrite !append_assoc. }
    split; [apply Hshape|].
    intros head tail Hsplit. rewrite Hshape, Hsplit.
    now rewrite !append_assoc.
Qed.

Lemma handleAddLink_link_text_witness :
  exists sel displayText,
    Some Sample.caret = Some sel
    /\ displayText <> ""
    /\ displayText
       = (if negb (JS.falsy (Dom.selectedText sel)) then Dom.selectedText sel
          else "https://news.example/a").
Proof.
  destruct (handleAddLink_link_text Sample.URL_new true (Some Sample.caret)
              (Sample.link_form "https://news.example/a")
              {| RichTextEditor.showLinkInput := false;
                 RichTextEditor.linkUrl := ""; RichTextEditor.linkText := "" |}
              [RichTextEditor.Focus;
               RichTextEditor.ExecCommand "insertHTML"
                 (RichTextEditor.link_markup "https://news.example/a"
                    "https://news.example/a");
               RichTextEditor.UpdateContent]
              eq_refl eq_refl)
    as (_ & sel & displayText & Hsel & Hne & Htext & _).
  exists sel, displayText. split; [exact Hsel|]. split; [exact Hne|].
  exact Htext.
Defined.

Lemma handleLogin_failure_keeps_session_witness :
  SignIn.localStorage
    (SignIn.handleLogin Sample.stringify Sample.client {[ "theme" := "dark" ]}
       Sample.denying (Sample.sign_in_form "ann@example.com" "wrong-password"))
  = {[ "theme" := "dark" ]}.
Proof.
  apply (handleLogin_failure_keeps_session Sample.stringify Sample.client
           {[ "theme" := "dark" ]} Sample.denying
           (Sample.sign_in_form "ann@example.com" "wrong-password")
           (Axios.post Sample.client "/users/login"
              {| SignIn.body_email := "ann@example.com";
                 SignIn.body_password := "wrong-password" |})).
  - reflexivity.
  - reflexivity.
Defined.
